(** * Layers of brainstorm: a shallow embedding of
      [brainstorm/layers/python_layers.py]

    The Python module defines the layer contract [LayerBase], three
    variants ([InputLayer], [NoOpLayer], [FeedForwardLayer]) and the
    registry function [get_layer_class_from_typename].  Objects are
    records, methods are functions on them, raised exceptions are values
    of [exn], and the buffers the caller owns live in an explicit store
    so that views and in-place writes alias the way they do in numpy. *)

From stdpp Require Import base option list gmap strings.

Local Open Scope string_scope.
Local Open Scope list_scope.
Local Open Scope nat_scope.

(** ** Exceptions *)

(** The argument substituted for [{}] by [str.format]: a string, or the
    list of strings [list(kwargs.keys())]. *)
Inductive fmt_arg :=
  | ArgStr (s : string)
  | ArgList (l : list string).

(** The text of an exception: the format string of the source with the
    arguments of its [.format(...)] call, unrendered. *)
Record message := Format { template : string; fmt_args : list fmt_arg }.

Inductive exn :=
  | AssertionError (msg : message)
  | KeyError (key : string)
  | TypeError (msg : message)
  | ValueError (msg : message)
  | AttributeError (msg : message).

(** [names msg key]: the key is one of the values formatted into the
    message. *)
Definition arg_names (a : fmt_arg) (key : string) : bool :=
  match a with
  | ArgStr s => bool_decide (s = key)
  | ArgList l => bool_decide (key ∈ l)
  end.

Definition names (msg : message) (key : string) : bool :=
  existsb (fun a => arg_names a key) (fmt_args msg).

Inductive result (A : Type) :=
  | Ok (a : A)
  | Raise (e : exn).
Arguments Ok {A} a.
Arguments Raise {A} e.

Definition is_ok {A} (r : result A) : bool :=
  match r with Ok _ => true | Raise _ => false end.

#[global] Instance result_ret : MRet result := fun _ a => Ok a.
#[global] Instance result_bind : MBind result := fun _ _ f m =>
  match m with
  | Ok a => f a
  | Raise e => Raise e
  end.

(** [assert cond, msg] *)
Definition assert (cond : bool) (msg : message) : result unit :=
  if cond then Ok tt else Raise (AssertionError msg).

(** ** Keyword arguments *)

(** [kwargs] is a dict from option names to option values. *)
Abbreviation kwargs_t := (gmap string string).

(** [kwargs.keys()]. The list holds each key of the dict once; its order
    is the key order of the map, not the insertion order of a Python
    dict, so only membership in it is meaningful. *)
Definition keys (kwargs : kwargs_t) : list string := (map_to_list kwargs).*1.

(** [kwargs.get(key, default)] *)
Definition kwargs_get (kwargs : kwargs_t) (key dflt : string) : string :=
  default dflt (kwargs !! key).

(** ** The numeric backend *)

(** The activations a handler implements, each with its derivative
    ([h.sigmoid] and [h.sigmoid_deriv], and so on). *)
Inductive method := sigmoid | tanh | rel.

(** The key of a method in the activation table. *)
Definition method_name (m : method) : string :=
  match m with
  | sigmoid => "sigmoid"
  | tanh => "tanh"
  | rel => "rel"
  end.

(** The buffers alive, each in row-major order; a buffer's index is its
    identity. *)
Abbreviation store R := (list (list R)).

Section Layers.

(** The scalars of the backend.  Nothing is assumed of them: sums and
    products are whatever the bound handler computes. *)
Context {R : Type}.

(** Modelled from the spec: the handler is the numeric backend the layers
    consume; its class is not in this module.  The contract has the
    elementwise activations and their derivatives, called as
    [deriv(input_or_none, output, out_delta, result_out)], and the matrix
    operations [dot], [dot_add], [add_mv], [reshape], [zeros] and [sum]
    defined below from the scalar operations of the handler.  The
    contract says nothing of ill-shaped arguments: the operations below
    raise nothing and read a cell outside a buffer as zero. *)
Record Handler := {
  h_zero : R;
  h_add : R → R → R;
  h_mul : R → R → R;
  h_sigmoid : R → R;
  h_sigmoid_deriv : option R → R → R → R;
  h_tanh : R → R;
  h_tanh_deriv : option R → R → R → R;
  h_rel : R → R;
  h_rel_deriv : option R → R → R → R;
}.

(** What [self.act_func] can hold after [set_handler]: a bound method of
    the handler, or the one-parameter function [lambda x: x]. *)
Inductive act_callable :=
  | BoundAct (h : Handler) (m : method)
  | LambdaId.

(** What [self.act_func_deriv] can hold: a bound method of the handler,
    or the integer of the [linear] entry. *)
Inductive deriv_object :=
  | BoundDeriv (h : Handler) (m : method)
  | PyInt (n : Z).

(** The scalar function behind the bound method [h.m]. *)
Definition act_of (h : Handler) (m : method) : R → R :=
  match m with
  | sigmoid => h_sigmoid h
  | tanh => h_tanh h
  | rel => h_rel h
  end.

(** The scalar function behind the bound method [h.m_deriv]. *)
Definition deriv_of (h : Handler) (m : method) : option R → R → R → R :=
  match m with
  | sigmoid => h_sigmoid_deriv h
  | tanh => h_tanh_deriv h
  | rel => h_rel_deriv h
  end.

(** ** Layer objects *)

Inductive layer_class := LayerBase | InputLayer | NoOpLayer | FeedForwardLayer.

#[global] Instance layer_class_eq_dec : EqDecision layer_class.
Proof. solve_decision. Defined.

(** The instance attributes.  [sink_layers] and [source_layers] are
    stored as given (object identities of the neighbours); [act_func] and
    [act_func_deriv] are [None] until a handler is set, and only a
    [FeedForwardLayer] ever reads them. *)
Record layer := {
  cls : layer_class;
  in_size : option nat;
  kwargs : kwargs_t;
  out_size : option nat;
  sink_layers : list nat;
  source_layers : list nat;
  handler : option Handler;
  act_func : option act_callable;
  act_func_deriv : option deriv_object;
}.

(** Attribute assignments [self.kwargs = ...], [self.handler = ...] and
    [self.act_func, self.act_func_deriv = ...]. *)
Definition with_kwargs (self : layer) (kw : kwargs_t) : layer :=
  {| cls := cls self; in_size := in_size self; kwargs := kw;
     out_size := out_size self;
     sink_layers := sink_layers self; source_layers := source_layers self;
     handler := handler self;
     act_func := act_func self; act_func_deriv := act_func_deriv self |}.

Definition with_handler (self : layer) (h : option Handler) : layer :=
  {| cls := cls self; in_size := in_size self; kwargs := kwargs self;
     out_size := out_size self;
     sink_layers := sink_layers self; source_layers := source_layers self;
     handler := h;
     act_func := act_func self; act_func_deriv := act_func_deriv self |}.

Definition with_act_func (self : layer) (f : option act_callable)
    (d : option deriv_object) : layer :=
  {| cls := cls self; in_size := in_size self; kwargs := kwargs self;
     out_size := out_size self;
     sink_layers := sink_layers self; source_layers := source_layers self;
     handler := handler self;
     act_func := f; act_func_deriv := d |}.

(** [LayerBase.validate_kwargs]: [assert not kwargs, ...] *)
Definition LayerBase_validate_kwargs (kwargs : kwargs_t) : result unit :=
  assert (bool_decide (kwargs = ∅))
         (Format "Unexpected kwargs: {}" [ArgList (keys kwargs)]).

(** [FeedForwardLayer.validate_kwargs]: the loop over [kwargs.keys()],
    the assertion failing at the first key that is not [act_func]. *)
Fixpoint FeedForwardLayer_validate_keys (ks : list string) : result unit :=
  match ks with
  | [] => Ok tt
  | key :: rest =>
      _ ← assert (bool_decide (key ∈ ["act_func"]))
                 (Format "Unexpected kwarg: {} for FeedForwardLayer" [ArgStr key]);
      FeedForwardLayer_validate_keys rest
  end.

Definition FeedForwardLayer_validate_kwargs (kwargs : kwargs_t) : result unit :=
  FeedForwardLayer_validate_keys (keys kwargs).

(** [self.validate_kwargs(kwargs)] resolved on the class of [self]. *)
Definition validate_kwargs (c : layer_class) (kwargs : kwargs_t) : result unit :=
  match c with
  | FeedForwardLayer => FeedForwardLayer_validate_kwargs kwargs
  | _ => LayerBase_validate_kwargs kwargs
  end.

(** The keys a variant accepts. *)
Definition allowed_keys (c : layer_class) : list string :=
  match c with
  | FeedForwardLayer => ["act_func"]
  | _ => []
  end.

(** [LayerBase._get_output_size] *)
Definition get_output_size (size in_size : option nat) (kwargs : kwargs_t)
  : option nat :=
  match size with
  | Some s => Some s
  | None => in_size
  end.

(** [LayerBase.__init__], run for an object of class [c]. *)
Definition LayerBase_init (c : layer_class) (size in_size : option nat)
    (sinks sources : list nat) (kwargs : kwargs_t) : result layer :=
  _ ← validate_kwargs c kwargs;
  mret {| cls := c; in_size := in_size; kwargs := kwargs;
          out_size := get_output_size size in_size kwargs;
          sink_layers := sinks; source_layers := sources;
          handler := None; act_func := None; act_func_deriv := None |}.

(** Python truth of an optional size: [None] and [0] are false. *)
Definition truthy (n : option nat) : bool :=
  match n with
  | Some (S _) => true
  | _ => false
  end.

(** Python [size == in_size] on optional integers. *)
Definition py_eq (a b : option nat) : bool := bool_decide (a = b).

Definition InputLayer_init (size in_size : option nat)
    (sinks sources : list nat) (kwargs : kwargs_t) : result layer :=
  self ← LayerBase_init InputLayer size in_size sinks sources kwargs;
  _ ← assert (negb (truthy in_size))
             (Format "InputLayer cannot have an in_size" []);
  mret self.

Definition NoOpLayer_init (size in_size : option nat)
    (sinks sources : list nat) (kwargs : kwargs_t) : result layer :=
  self ← LayerBase_init NoOpLayer size in_size sinks sources kwargs;
  _ ← assert (py_eq size in_size)
             (Format "For NoOpLayer in and out size must be equal" []);
  mret self.

Definition FeedForwardLayer_init (size in_size : option nat)
    (sinks sources : list nat) (kwargs : kwargs_t) : result layer :=
  self ← LayerBase_init FeedForwardLayer size in_size sinks sources kwargs;
  mret (with_kwargs (with_act_func self None None) kwargs).

(** Instantiating the class [c]. *)
Definition construct (c : layer_class) (size in_size : option nat)
    (sinks sources : list nat) (kwargs : kwargs_t) : result layer :=
  match c with
  | LayerBase => LayerBase_init LayerBase size in_size sinks sources kwargs
  | InputLayer => InputLayer_init size in_size sinks sources kwargs
  | NoOpLayer => NoOpLayer_init size in_size sinks sources kwargs
  | FeedForwardLayer => FeedForwardLayer_init size in_size sinks sources kwargs
  end.

(** [LayerBase.set_handler]: the new handler is stored. *)
Definition LayerBase_set_handler (self : layer) (new_handler : Handler)
  : layer * result unit :=
  (with_handler self (Some new_handler), Ok tt).

(** The dict [activation_functions] built in
    [FeedForwardLayer.set_handler] from the methods of [self.handler]. *)
Definition activation_functions (h : Handler)
  : gmap string (act_callable * deriv_object) :=
  {[ "sigmoid" := (BoundAct h sigmoid, BoundDeriv h sigmoid);
     "tanh" := (BoundAct h tanh, BoundDeriv h tanh);
     "linear" := (LambdaId, PyInt 1);
     "rel" := (BoundAct h rel, BoundDeriv h rel) ]}.

(** [FeedForwardLayer.set_handler].  The handler is assigned before the
    table is indexed, so it stays assigned when the lookup raises. *)
Definition FeedForwardLayer_set_handler (self : layer) (new_handler : Handler)
  : layer * result unit :=
  let self := with_handler self (Some new_handler) in
  let name := kwargs_get (kwargs self) "act_func" "tanh" in
  match activation_functions new_handler !! name with
  | Some (f, d) => (with_act_func self (Some f) (Some d), Ok tt)
  | None => (self, Raise (KeyError name))
  end.

Definition set_handler (self : layer) (new_handler : Handler)
  : layer * result unit :=
  match cls self with
  | FeedForwardLayer => FeedForwardLayer_set_handler self new_handler
  | _ => LayerBase_set_handler self new_handler
  end.

(** ** Parameter structure *)

(** A declared shape: an integer, or a pair of integers; the entries are
    the layer's sizes as they are, [None] included. *)
Inductive shape_decl :=
  | Vec (n : option nat)
  | Mat (r c : option nat).

Definition FeedForwardLayer_get_parameter_structure (self : layer)
  : list (string * shape_decl) :=
  [ ("W", Mat (in_size self) (out_size self));
    ("b", Vec (out_size self)) ].

Definition get_parameter_structure (self : layer) : list (string * shape_decl) :=
  match cls self with
  | FeedForwardLayer => FeedForwardLayer_get_parameter_structure self
  | _ => []
  end.

(** ** Buffers *)

(** An array object: the buffer it reads and writes, and its shape.
    Two arrays with the same [base] are views of one buffer. *)
Record ndarray := { base : nat; shape : list nat }.

(** An argument of a matrix product: an array [a], or its transpose
    [a.T]. *)
Inductive operand :=
  | Arr (a : ndarray)
  | ArrT (a : ndarray).

(** The array behind an operand. *)
Definition array_of (x : operand) : ndarray :=
  match x with Arr a | ArrT a => a end.

(** Computations that read and write buffers and may raise; what was
    written before an exception stays written. *)
Definition M (A : Type) : Type := store R → result A * store R.

#[global] Instance M_ret : MRet M := λ _ a st, (Ok a, st).
#[global] Instance M_bind : MBind M := λ _ _ f m st,
  match m st with
  | (Ok a, st') => f a st'
  | (Raise e, st') => (Raise e, st')
  end.

Definition raise {A} (e : exn) : M A := λ st, (Raise e, st).

Definition data (st : store R) (a : ndarray) : list R := default [] (st !! base a).

(** An operation of the handler stores its result [d] in the array
    [out]: the buffer of [out] then holds [d]. The size of [d] is the
    caller's; no shape of [out] is checked against it. *)
Definition write (out : ndarray) (d : list R) : M unit :=
  λ st, (Ok tt, <[base out := d]> st).

Definition rows (x : operand) : nat :=
  match x with
  | Arr a => nth 0 (shape a) 0
  | ArrT a => nth 1 (shape a) 0
  end.

Definition cols (x : operand) : nat :=
  match x with
  | Arr a => nth 1 (shape a) 0
  | ArrT a => nth 0 (shape a) 0
  end.

(** Number of cells of a shape. *)
Definition size_of (shp : list nat) : nat := foldr Nat.mul 1 shp.

(** A matrix as the function from a row and a column to the cell. *)
Definition matrix : Type := nat → nat → R.

Definition transpose (A : matrix) : matrix := λ i j, A j i.

(** The list of the cells [F i j], [i < m] and [j < n], row by row. *)
Definition tabulate2 (m n : nat) (F : matrix) : list R :=
  flat_map (λ i, map (F i) (seq 0 n)) (seq 0 m).

Section Handler_operations.

Variable H : Handler.

(** The buffer [d] read as a matrix with [ncols] columns, row-major. *)
Definition cells (ncols : nat) (d : list R) : matrix :=
  λ i j, nth (i * ncols + j) d (h_zero H).

(** The matrix a product reads for an operand. *)
Definition get (st : store R) (x : operand) : matrix :=
  match x with
  | Arr a => cells (nth 1 (shape a) 0) (data st a)
  | ArrT a => transpose (cells (nth 1 (shape a) 0) (data st a))
  end.

Definition hsum (xs : list R) : R := foldl (h_add H) (h_zero H) xs.

(** The product of two matrices with inner dimension [p]. *)
Definition mat_dot (p : nat) (A B : matrix) : matrix :=
  λ i j, hsum (map (λ k, h_mul H (A i k) (B k j)) (seq 0 p)).

(** The sum of column [j] over the [m] rows of a matrix. *)
Definition column_sum (m : nat) (A : matrix) (j : nat) : R :=
  hsum (map (λ i, A i j) (seq 0 m)).

(** Cell [(i, j)] of the product of two operands. *)
Definition dot_cell (st : store R) (A B : operand) : matrix :=
  mat_dot (cols A) (get st A) (get st B).

(** Modelled from the spec: [reshape(buffer, new_shape)], a view. *)
Definition H_reshape (a : ndarray) (new_shape : list nat) : ndarray :=
  {| base := base a; shape := new_shape |}.

(** Modelled from the spec: [zeros(shape)], a new zero-filled buffer. *)
Definition H_zeros (shp : list nat) : M ndarray :=
  λ st, (Ok {| base := length st; shape := shp |},
         (st ++ [replicate (size_of shp) (h_zero H)])%list).

(** Modelled from the spec: [dot(A, B, out)], the product overwrites
    [out]. *)
Definition H_dot (A B : operand) (out : ndarray) : M unit :=
  λ st, write out (tabulate2 (rows A) (cols B) (dot_cell st A B)) st.

(** Modelled from the spec: [dot_add(A, B, out)], the product is added
    to [out]. *)
Definition H_dot_add (A B : operand) (out : ndarray) : M unit :=
  λ st, write out (tabulate2 (rows A) (cols B)
                     (λ i j, h_add H (get st (Arr out) i j) (dot_cell st A B i j))) st.

(** Modelled from the spec: [add_mv(matrix, vector, out)], the vector is
    added to every row. *)
Definition H_add_mv (m v out : ndarray) : M unit :=
  λ st, write out (tabulate2 (rows (Arr m)) (cols (Arr m))
                     (λ i j, h_add H (get st (Arr m) i j)
                                     (nth j (data st v) (h_zero H)))) st.

(** Modelled from the spec: [sum(buffer, axis, out)], the reduction
    along an axis overwrites [out]. *)
Definition H_sum (a : ndarray) (axis : nat) (out : ndarray) : M unit :=
  λ st,
  let x := match axis with 0 => Arr a | _ => ArrT a end in
  write out (map (column_sum (rows x) (get st x)) (seq 0 (cols x))) st.

End Handler_operations.

(** ** Forward and backward pass *)

(** [parameters['W']] *)
Definition getitem (d : gmap string ndarray) (key : string) : M ndarray :=
  match d !! key with
  | Some a => mret a
  | None => raise (KeyError key)
  end.

(** [t, b, f = input_buffer.shape] *)
Definition unpack3 (shp : list nat) : M (nat * nat * nat) :=
  match shp with
  | [t; b; f] => mret (t, b, f)
  | _ => raise (ValueError (Format "wrong number of values to unpack" []))
  end.

(** Reading an attribute of [H = self.handler], at the first call
    [H.attr(...)] of a pass: [None] has none. *)
Definition bound (h : option Handler) (attr : string) : M Handler :=
  match h with
  | Some H => mret H
  | None => raise (AttributeError
              (Format "'NoneType' object has no attribute '{}'" [ArgStr attr]))
  end.

(** [self.out_size] used as an axis length in [(t * b, self.out_size)]:
    [None] is no length. *)
Definition as_dim (n : option nat) : M nat :=
  match n with
  | Some k => mret k
  | None => raise (TypeError (Format "an integer is required" []))
  end.

(** The call [self.act_func(x, out)] with two positional arguments: a
    bound method of the handler writes the activation of each cell of
    [x] into [out]; [lambda x: x] has one parameter. *)
Definition call_act_func (f : option act_callable) (x out : ndarray) : M unit :=
  match f with
  | Some (BoundAct h m) => λ st, write out (map (act_of h m) (data st x)) st
  | Some LambdaId =>
      raise (TypeError (Format "<lambda>() takes exactly 1 argument (2 given)" []))
  | None => raise (TypeError (Format "'NoneType' object is not callable" []))
  end.

(** The call [self.act_func_deriv(None, y, dy, result)]: a bound method
    of the handler writes the derivative, cell by cell, into [result];
    an integer is not callable. *)
Definition call_act_func_deriv (d : option deriv_object) (x : option ndarray)
    (y dy result : ndarray) : M unit :=
  match d with
  | Some (BoundDeriv h m) =>
      λ st, write result
              (zip_with (deriv_of h m (None : option R)) (data st y) (data st dy)) st
  | Some (PyInt _) => raise (TypeError (Format "'int' object is not callable" []))
  | None => raise (TypeError (Format "'NoneType' object is not callable" []))
  end.

Definition FeedForwardLayer_forward_pass (self : layer)
    (parameters : gmap string ndarray) (input_buffer output_buffer : ndarray)
  : M unit :=
  (* prepare *)
  WX ← getitem parameters "W";
  W_bias ← getitem parameters "b";
  (* reshape *)
  '(t, b, f) ← unpack3 (shape input_buffer);
  H ← bound (handler self) "reshape";
  let flat_input := H_reshape input_buffer [t * b; f] in
  n ← as_dim (out_size self);
  let flat_output := H_reshape output_buffer [t * b; n] in
  (* calculate outputs *)
  H_dot H (Arr flat_input) (Arr WX) flat_output;;
  H_add_mv H flat_output W_bias flat_output;;
  call_act_func (act_func self) flat_output flat_output.

Definition FeedForwardLayer_backward_pass (self : layer)
    (parameters : gmap string ndarray) (input_buffer output_buffer : ndarray)
    (in_delta_buffer out_delta_buffer : ndarray)
    (gradient_buffer : gmap string ndarray) : M unit :=
  (* prepare *)
  WX ← getitem parameters "W";
  W_bias ← getitem parameters "b";
  dWX ← getitem gradient_buffer "W";
  dW_bias ← getitem gradient_buffer "b";
  H ← bound (handler self) "zeros";
  dZ ← H_zeros H (shape output_buffer);
  (* reshape *)
  '(t, b, f) ← unpack3 (shape input_buffer);
  let flat_input := H_reshape input_buffer [t * b; f] in
  n ← as_dim (out_size self);
  let flat_dZ := H_reshape dZ [t * b; n] in
  let flat_in_delta_buffer := H_reshape in_delta_buffer [t * b; f] in
  (* calculate in deltas and gradients *)
  call_act_func_deriv (act_func_deriv self) None output_buffer out_delta_buffer dZ;;
  H_dot_add H (Arr flat_dZ) (ArrT WX) flat_in_delta_buffer;;
  H_dot H (ArrT flat_input) (Arr flat_dZ) dWX;;
  H_sum H flat_dZ 0 dW_bias.

(** [LayerBase.forward_pass] and [LayerBase.backward_pass]: [pass]. *)
Definition LayerBase_forward_pass (self : layer)
    (parameters : gmap string ndarray) (input_buffer output_buffer : ndarray)
  : M unit := mret tt.

Definition LayerBase_backward_pass (self : layer)
    (parameters : gmap string ndarray) (input_buffer output_buffer : ndarray)
    (in_delta_buffer out_delta_buffer : ndarray)
    (gradient_buffer : gmap string ndarray) : M unit := mret tt.

(** The method calls, resolved on the class of [self]. *)
Definition forward_pass (self : layer)
    (parameters : gmap string ndarray) (input_buffer output_buffer : ndarray)
  : M unit :=
  match cls self with
  | FeedForwardLayer =>
      FeedForwardLayer_forward_pass self parameters input_buffer output_buffer
  | _ => LayerBase_forward_pass self parameters input_buffer output_buffer
  end.

Definition backward_pass (self : layer)
    (parameters : gmap string ndarray) (input_buffer output_buffer : ndarray)
    (in_delta_buffer out_delta_buffer : ndarray)
    (gradient_buffer : gmap string ndarray) : M unit :=
  match cls self with
  | FeedForwardLayer =>
      FeedForwardLayer_backward_pass self parameters input_buffer output_buffer
        in_delta_buffer out_delta_buffer gradient_buffer
  | _ =>
      LayerBase_backward_pass self parameters input_buffer output_buffer
        in_delta_buffer out_delta_buffer gradient_buffer
  end.

End Layers.

(** ** The registry *)

Module Registry.

#[local] Set Warnings "-register-all".

(** A class object: its [__name__] and its direct subclasses
    ([__subclasses__()]). *)
Inductive pyclass := PyClass (name : string) (subclasses : list pyclass).

Definition class_name (c : pyclass) : string :=
  match c with PyClass name _ => name end.

Definition subclasses (c : pyclass) : list pyclass :=
  match c with PyClass _ subs => subs end.

(** Modelled from the spec: [brainstorm.utils.get_inheritors] is not in
    this module; it yields the subclasses of a class, direct and
    transitive, and not the class itself. The collection it yields has
    no order given: the order of this list is one enumeration of it, and
    only membership in it is meaningful. *)
Fixpoint get_inheritors (c : pyclass) : list pyclass :=
  match c with
  | PyClass _ subs => flat_map (λ s, s :: get_inheritors s) subs
  end.

(** The [for ... else] loop of [get_layer_class_from_typename]. *)
Fixpoint scan (typename : string) (layer_classes : list pyclass)
  : result pyclass :=
  match layer_classes with
  | [] => Raise (TypeError (Format "Layer-type '{}' unknown!" [ArgStr typename]))
  | layer_class :: rest =>
      if bool_decide (typename = class_name layer_class)
      then Ok layer_class
      else scan typename rest
  end.

(** [get_layer_class_from_typename], in a program whose class
    [LayerBase] is the class object given. *)
Definition get_layer_class_from_typename (LayerBase : pyclass)
    (typename : string) : result pyclass :=
  let layer_classes := get_inheritors LayerBase in
  scan typename layer_classes.

(** The class object of each class of this module. *)
Definition class_object (c : layer_class) : pyclass :=
  match c with
  | LayerBase =>
      PyClass "LayerBase"
        [PyClass "InputLayer" []; PyClass "NoOpLayer" [];
         PyClass "FeedForwardLayer" []]
  | InputLayer => PyClass "InputLayer" []
  | NoOpLayer => PyClass "NoOpLayer" []
  | FeedForwardLayer => PyClass "FeedForwardLayer" []
  end.

(** Number of classes in a hierarchy. *)
Fixpoint class_count (c : pyclass) : nat :=
  match c with
  | PyClass _ subs => S (list_sum (map class_count subs))
  end.

End Registry.

(** ** A handler and buffers to run the model on *)

Module Example.

Local Open Scope Z_scope.

(** A handler on the integers: [rel] is the rectifier, [sigmoid] and
    [tanh] are their clipped counterparts, and each derivative is the
    formula in the output [y] times [dy]. *)
Definition int_handler : Handler (R:=Z) :=
  {| h_zero := 0;
     h_add := Z.add;
     h_mul := Z.mul;
     h_sigmoid := λ x, Z.max 0 (Z.min 1 x);
     h_sigmoid_deriv := λ _ y dy, dy * y * (1 - y);
     h_tanh := λ x, Z.max (-1) (Z.min 1 x);
     h_tanh_deriv := λ _ y dy, dy * (1 - y * y);
     h_rel := λ x, Z.max 0 x;
     h_rel_deriv := λ _ y dy, if 0 <? y then dy else 0 |}.

(** Buffers for a layer with [in_size = 3] and [out_size = 4] on one
    time step and a batch of one: the input, [W] (the identity padded
    with a zero column), [b], the output, the two delta buffers, a second
    out delta, and the gradients of [W] and [b]. *)
Definition input_buffer : ndarray := {| base := 0; shape := [1; 1; 3]%nat |}.
Definition WX : ndarray := {| base := 1; shape := [3; 4]%nat |}.
Definition W_bias : ndarray := {| base := 2; shape := [4]%nat |}.
Definition output_buffer : ndarray := {| base := 3; shape := [1; 1; 4]%nat |}.
Definition in_delta_buffer : ndarray := {| base := 4; shape := [1; 1; 3]%nat |}.
Definition out_delta_buffer : ndarray := {| base := 5; shape := [1; 1; 4]%nat |}.
Definition out_delta_buffer' : ndarray := {| base := 6; shape := [1; 1; 4]%nat |}.
Definition dWX : ndarray := {| base := 7; shape := [3; 4]%nat |}.
Definition dW_bias : ndarray := {| base := 8; shape := [4]%nat |}.

Definition parameters : gmap string ndarray := {[ "W" := WX; "b" := W_bias ]}.
Definition gradient_buffer : gmap string ndarray :=
  {[ "W" := dWX; "b" := dW_bias ]}.

Definition buffers : store Z :=
  [ [5; -2; 7];
    [1; 0; 0; 0;  0; 1; 0; 0;  0; 0; 1; 0];
    [0; 0; 0; 0];
    [9; 9; 9; 9];
    [10; 20; 30];
    [1; 2; 3; 4];
    [-1; 0; 2; 5];
    [8; 8; 8; 8;  8; 8; 8; 8;  8; 8; 8; 8];
    [8; 8; 8; 8] ].

(** [FeedForwardLayer(4, 3, [], [], kwargs)] after [__init__]. *)
Definition feed_forward (kwargs : kwargs_t) : layer (R:=Z) :=
  {| cls := FeedForwardLayer; in_size := Some 3%nat; kwargs := kwargs;
     out_size := Some 4%nat; sink_layers := []; source_layers := [];
     handler := None; act_func := None; act_func_deriv := None |}.

(** The layer with [kwargs = {'act_func': name}], then
    [set_handler(int_handler)]. *)
Definition bound_layer (name : string) : layer (R:=Z) :=
  (set_handler (feed_forward {[ "act_func" := name ]}) int_handler).1.

(** [InputLayer(5, None, [], [], {})] and [NoOpLayer(4, 4, [], [], {})]
    after [__init__]. *)
Definition input_layer : layer (R:=Z) :=
  {| cls := InputLayer; in_size := None; kwargs := ∅;
     out_size := Some 5%nat; sink_layers := []; source_layers := [];
     handler := None; act_func := None; act_func_deriv := None |}.

Definition noop_layer : layer (R:=Z) :=
  {| cls := NoOpLayer; in_size := Some 4%nat; kwargs := ∅;
     out_size := Some 4%nat; sink_layers := []; source_layers := [];
     handler := None; act_func := None; act_func_deriv := None |}.

End Example.

(** * Properties *)

(** ** Keyword arguments and construction *)

Section Construction.

Context {R : Type}.

Lemma keys_elem_of (kw : kwargs_t) (key : string) :
  key ∈ keys kw ↔ is_Some (kw !! key).
Proof.
  unfold keys. rewrite list_elem_of_fmap. split.
  - intros [[k v] [-> Hin]]. apply elem_of_map_to_list in Hin. by exists v.
  - intros [v Hv]. exists (key, v). split; [done|]. by apply elem_of_map_to_list.
Qed.

Lemma keys_empty (kw : kwargs_t) : keys kw = [] ↔ kw = ∅.
Proof.
  unfold keys. split.
  - intros Hk. apply map_to_list_empty_iff. by apply fmap_nil_inv in Hk.
  - intros ->. by rewrite map_to_list_empty.
Qed.

Lemma LayerBase_validate_kwargs_ok (kw : kwargs_t) :
  LayerBase_validate_kwargs kw = Ok tt ↔ kw = ∅.
Proof.
  unfold LayerBase_validate_kwargs, assert. case_bool_decide; naive_solver.
Qed.

Lemma LayerBase_validate_kwargs_raise (kw : kwargs_t) (key : string) :
  is_Some (kw !! key) →
  ∃ msg, LayerBase_validate_kwargs kw = Raise (AssertionError msg)
         ∧ names msg key = true.
Proof.
  intros Hkey. unfold LayerBase_validate_kwargs, assert.
  case_bool_decide as Hempty.
  - subst kw. rewrite lookup_empty in Hkey. by destruct Hkey.
  - eexists. split; [done|]. cbn. rewrite orb_false_r.
    apply bool_decide_eq_true. by apply keys_elem_of.
Qed.

Lemma FeedForwardLayer_validate_keys_ok (ks : list string) :
  FeedForwardLayer_validate_keys ks = Ok tt ↔ ∀ k, k ∈ ks → k = "act_func".
Proof.
  induction ks as [|k ks IH]; cbn.
  - split; [|done]. intros _ k Hk. by apply elem_of_nil in Hk.
  - unfold assert. case_bool_decide as Hk; cbn.
    + apply list_elem_of_singleton in Hk. rewrite IH. split.
      * intros Hall k' [->|Hin]%elem_of_cons; auto.
      * intros Hall k' Hin. apply Hall. by right.
    + split; [done|]. intros Hall. exfalso. apply Hk.
      apply list_elem_of_singleton, Hall. by left.
Qed.

Lemma FeedForwardLayer_validate_keys_raise (ks : list string) (key : string) :
  key ∈ ks → key ≠ "act_func" →
  ∃ bad, FeedForwardLayer_validate_keys ks =
           Raise (AssertionError
                    (Format "Unexpected kwarg: {} for FeedForwardLayer" [ArgStr bad]))
         ∧ bad ∈ ks ∧ bad ≠ "act_func".
Proof.
  intros Hin Hne. induction ks as [|k ks IH]; [by apply elem_of_nil in Hin|].
  cbn. unfold assert. case_bool_decide as Hk; cbn.
  - apply list_elem_of_singleton in Hk. subst k.
    apply elem_of_cons in Hin as [->|Hin]; [done|].
    destruct (IH Hin) as (bad & -> & Hbad & Hbne).
    exists bad. split_and!; [done| by right | done].
  - exists k. split_and!; [done| by left |].
    intros ->. apply Hk. by apply list_elem_of_singleton.
Qed.

(** Validation succeeds exactly on the keys the variant allows. *)
Lemma validate_kwargs_ok (c : layer_class) (kw : kwargs_t) :
  validate_kwargs c kw = Ok tt ↔ ∀ k, is_Some (kw !! k) → k ∈ allowed_keys c.
Proof.
  destruct c; cbn [validate_kwargs allowed_keys].
  1-3: rewrite LayerBase_validate_kwargs_ok; split;
    [ intros -> k [v Hv]; by rewrite lookup_empty in Hv
    | intros Hall; apply map_empty; intros k;
      destruct (kw !! k) eqn:Hk; [|done];
      exfalso; eapply not_elem_of_nil, (Hall k); by rewrite Hk ].
  unfold FeedForwardLayer_validate_kwargs.
  rewrite FeedForwardLayer_validate_keys_ok. split.
  - intros Hall k Hk. apply list_elem_of_singleton, Hall. by apply keys_elem_of.
  - intros Hall k Hk. apply list_elem_of_singleton, Hall. by apply keys_elem_of.
Qed.

Lemma validate_kwargs_raise (c : layer_class) (kw : kwargs_t) (key : string) :
  is_Some (kw !! key) → key ∉ allowed_keys c →
  ∃ msg bad, validate_kwargs c kw = Raise (AssertionError msg)
             ∧ names msg bad = true
             ∧ is_Some (kw !! bad) ∧ (bad ∉ allowed_keys c)
             ∧ (c ≠ FeedForwardLayer → bad = key).
Proof.
  intros Hkey Hbad.
  destruct c; cbn [validate_kwargs allowed_keys] in *.
  1-3: destruct (LayerBase_validate_kwargs_raise kw key Hkey) as (msg & -> & Hn);
    exists msg, key; split_and!; done.
  unfold FeedForwardLayer_validate_kwargs.
  destruct (FeedForwardLayer_validate_keys_raise (keys kw) key)
    as (bad & -> & Hin & Hne).
  - by apply keys_elem_of.
  - intros ->. apply Hbad. by apply list_elem_of_singleton.
  - eexists _, bad. split_and!; [done| | by apply keys_elem_of | | done].
    + cbn. rewrite orb_false_r. by apply bool_decide_eq_true.
    + by intros ?%list_elem_of_singleton.
Qed.

(** [LayerBase.__init__] stops at the first statement that raises. *)
Lemma LayerBase_init_raise (c : layer_class) size in_sz sinks sources kw e :
  validate_kwargs c kw = Raise e →
  LayerBase_init (R:=R) c size in_sz sinks sources kw = Raise e.
Proof. intros Hv. unfold LayerBase_init. by rewrite Hv. Qed.

Lemma LayerBase_init_ok (c : layer_class) size in_sz sinks sources kw :
  validate_kwargs c kw = Ok tt →
  LayerBase_init (R:=R) c size in_sz sinks sources kw =
    Ok {| cls := c; in_size := in_sz; kwargs := kw;
          out_size := get_output_size size in_sz kw;
          sink_layers := sinks; source_layers := sources;
          handler := None; act_func := None; act_func_deriv := None |}.
Proof. intros Hv. unfold LayerBase_init. by rewrite Hv. Qed.

Lemma construct_raise (c : layer_class) size in_sz sinks sources kw e :
  validate_kwargs c kw = Raise e →
  construct (R:=R) c size in_sz sinks sources kw = Raise e.
Proof.
  intros Hv.
  destruct c; cbn [construct];
    unfold InputLayer_init, NoOpLayer_init, FeedForwardLayer_init;
    by rewrite (LayerBase_init_raise _ _ _ _ _ _ _ Hv).
Qed.

(** C6: for every layer variant, a kwargs mapping with a key outside the
    variant's allowed keys (none for LayerBase, InputLayer and NoOpLayer,
    only act_func for FeedForwardLayer) makes construction raise an
    assertion error whose message names an offending key: every key for
    the three variants without options, the first offending key met for
    FeedForwardLayer. *)
Theorem unknown_kwarg_is_rejected (c : layer_class) (size in_sz : option nat)
    (sinks sources : list nat) (kw : kwargs_t) (key : string) :
  is_Some (kw !! key) → key ∉ allowed_keys c →
  ∃ msg bad,
    construct (R:=R) c size in_sz sinks sources kw = Raise (AssertionError msg)
    ∧ names msg bad = true
    ∧ is_Some (kw !! bad) ∧ (bad ∉ allowed_keys c)
    ∧ (c ≠ FeedForwardLayer → bad = key).
Proof.
  intros Hkey Hbad.
  destruct (validate_kwargs_raise c kw key Hkey Hbad)
    as (msg & bad & Hv & Hrest).
  exists msg, bad. split; [|exact Hrest].
  by apply construct_raise.
Qed.

Lemma InputLayer_init_ok_iff size in_sz sinks sources kw :
  is_ok (InputLayer_init (R:=R) size in_sz sinks sources kw)
  = bool_decide (kw = ∅) && negb (truthy in_sz).
Proof.
  unfold InputLayer_init, LayerBase_init. cbn [validate_kwargs].
  unfold LayerBase_validate_kwargs, assert.
  case_bool_decide; cbn; [|done]. by destruct (truthy in_sz).
Qed.

(** C7: InputLayer construction fails whenever a non-empty (non-zero)
    in_size is supplied, as InputLayer(size=5, in_size=3) does; with
    in_size None and no kwargs it succeeds and out_size is the given
    size, 5 for InputLayer(size=5, in_size=None). *)
Theorem InputLayer_in_size_rule :
  (∀ size n sinks sources kw,
     is_ok (InputLayer_init (R:=R) size (Some (S n)) sinks sources kw) = false)
  ∧ (∀ size sinks sources,
       InputLayer_init (R:=R) size None sinks sources ∅ =
         Ok {| cls := InputLayer; in_size := None; kwargs := ∅;
               out_size := size;
               sink_layers := sinks; source_layers := sources;
               handler := None; act_func := None; act_func_deriv := None |})
  ∧ is_ok (InputLayer_init (R:=R) (Some 5) (Some 3) [] [] ∅) = false
  ∧ InputLayer_init (R:=R) (Some 5) None [] [] ∅ =
      Ok {| cls := InputLayer; in_size := None; kwargs := ∅;
            out_size := Some 5;
            sink_layers := []; source_layers := [];
            handler := None; act_func := None; act_func_deriv := None |}.
Proof.
  assert (Hgen : ∀ size sinks sources,
       InputLayer_init (R:=R) size None sinks sources ∅ =
         Ok {| cls := InputLayer; in_size := None; kwargs := ∅;
               out_size := size;
               sink_layers := sinks; source_layers := sources;
               handler := None; act_func := None; act_func_deriv := None |}).
  { intros size sinks sources. unfold InputLayer_init.
    rewrite LayerBase_init_ok by by apply validate_kwargs_ok; intros k [v Hv].
    cbn. by destruct size. }
  split_and!.
  - intros. rewrite InputLayer_init_ok_iff. cbn. by rewrite andb_false_r.
  - exact Hgen.
  - rewrite InputLayer_init_ok_iff. cbn. by rewrite andb_false_r.
  - apply Hgen.
Qed.

Lemma NoOpLayer_init_ok_iff size in_sz sinks sources kw :
  is_ok (NoOpLayer_init (R:=R) size in_sz sinks sources kw)
  = bool_decide (kw = ∅) && py_eq size in_sz.
Proof.
  unfold NoOpLayer_init, LayerBase_init. cbn [validate_kwargs].
  unfold LayerBase_validate_kwargs, assert.
  case_bool_decide; cbn; [|done]. by destruct (py_eq size in_sz).
Qed.

(** A NoOpLayer that was constructed has equal sizes. *)
Lemma NoOpLayer_init_sizes size in_sz sinks sources kw self :
  NoOpLayer_init (R:=R) size in_sz sinks sources kw = Ok self →
  out_size self = in_size self ∧ in_size self = in_sz ∧ size = in_sz.
Proof.
  unfold NoOpLayer_init, LayerBase_init, assert, py_eq.
  destruct (validate_kwargs NoOpLayer kw); cbn; [|done].
  case_bool_decide as Heq; cbn; [|done].
  intros [= <-]. cbn. subst in_sz. by destruct size.
Qed.

Lemma NoOpLayer_examples :
  NoOpLayer_init (R:=R) (Some 4) (Some 4) [] [] ∅ =
    Ok {| cls := NoOpLayer; in_size := Some 4; kwargs := ∅;
          out_size := Some 4;
          sink_layers := []; source_layers := [];
          handler := None; act_func := None; act_func_deriv := None |}
  ∧ is_ok (NoOpLayer_init (R:=R) (Some 4) (Some 5) [] [] ∅) = false.
Proof.
  split.
  - unfold NoOpLayer_init.
    rewrite LayerBase_init_ok by by apply validate_kwargs_ok; intros k [v Hv].
    done.
  - by rewrite NoOpLayer_init_ok_iff.
Qed.

(** C2: NoOpLayer(size=None, in_size=4) has out_size 4, equal to its
    in_size, and construction raises all the same: the assertion compares
    the size argument, not out_size, with in_size. *)
Theorem NoOpLayer_default_size_is_rejected :
  get_output_size None (Some 4) ∅ = Some 4
  ∧ NoOpLayer_init (R:=R) None (Some 4) [] [] ∅ =
      Raise (AssertionError
               (Format "For NoOpLayer in and out size must be equal" [])).
Proof.
  split; [done|]. unfold NoOpLayer_init.
  rewrite LayerBase_init_ok by by apply validate_kwargs_ok; intros k [v Hv].
  done.
Qed.

Lemma FeedForwardLayer_init_ok size in_sz sinks sources kw :
  (∀ k, is_Some (kw !! k) → k = "act_func") →
  FeedForwardLayer_init (R:=R) size in_sz sinks sources kw =
    Ok {| cls := FeedForwardLayer; in_size := in_sz; kwargs := kw;
          out_size := get_output_size size in_sz kw;
          sink_layers := sinks; source_layers := sources;
          handler := None; act_func := None; act_func_deriv := None |}.
Proof.
  intros Hkw. unfold FeedForwardLayer_init.
  rewrite LayerBase_init_ok; [done|].
  apply validate_kwargs_ok. intros k Hk.
  apply list_elem_of_singleton. by apply Hkw.
Qed.

(** C5: a FeedForwardLayer constructed with kwargs whose only key, if
    any, is act_func has the parameter structure
    [('W', (in_size, out_size)), ('b', out_size)], in this order, which
    is [('W', (3, 4)), ('b', 4)] for size=4 and in_size=3; binding a
    handler does not change it. *)
Theorem FeedForwardLayer_parameter_structure (size in_sz : option nat)
    (sinks sources : list nat) (kw : kwargs_t) :
  (∀ k, is_Some (kw !! k) → k = "act_func") →
  ∃ self,
    FeedForwardLayer_init (R:=R) size in_sz sinks sources kw = Ok self
    ∧ in_size self = in_sz
    ∧ out_size self = get_output_size size in_sz kw
    ∧ get_parameter_structure self =
        [("W", Mat (in_size self) (out_size self)); ("b", Vec (out_size self))]
    ∧ (size = Some 4 → in_sz = Some 3 →
       get_parameter_structure self =
         [("W", Mat (Some 3) (Some 4)); ("b", Vec (Some 4))])
    ∧ (∀ h, get_parameter_structure (set_handler self h).1 =
              get_parameter_structure self).
Proof.
  intros Hkw. eexists. split; [by apply FeedForwardLayer_init_ok|].
  split_and!; try done.
  - by intros -> ->.
  - intros h. unfold set_handler, FeedForwardLayer_set_handler. cbn.
    by destruct (activation_functions h !! _) as [[f d]|].
Qed.

End Construction.

(** ** Binding a handler *)

Section Binding.

Context {R : Type}.

Lemma activation_functions_lookup (h : Handler (R:=R)) (name : string) :
  activation_functions h !! name =
    if bool_decide (name = "sigmoid")
    then Some (BoundAct h sigmoid, BoundDeriv h sigmoid)
    else if bool_decide (name = "tanh")
    then Some (BoundAct h tanh, BoundDeriv h tanh)
    else if bool_decide (name = "linear")
    then Some (LambdaId, PyInt 1)
    else if bool_decide (name = "rel")
    then Some (BoundAct h rel, BoundDeriv h rel)
    else None.
Proof.
  unfold activation_functions.
  repeat (case_bool_decide; [by simplify_map_eq|]).
  by simplify_map_eq.
Qed.

(** The outcome of [FeedForwardLayer.set_handler] by the name looked
    up in the table. *)
Lemma set_handler_cases (self : layer (R:=R)) (h : Handler) :
  cls self = FeedForwardLayer →
  let name := kwargs_get (kwargs self) "act_func" "tanh" in
  let bound := with_handler self (Some h) in
  (kwargs self !! "act_func" = None → name = "tanh")
  ∧ (name = "sigmoid" →
     set_handler self h =
       (with_act_func bound (Some (BoundAct h sigmoid))
                      (Some (BoundDeriv h sigmoid)), Ok tt))
  ∧ (name = "tanh" →
     set_handler self h =
       (with_act_func bound (Some (BoundAct h tanh))
                      (Some (BoundDeriv h tanh)), Ok tt))
  ∧ (name = "linear" →
     set_handler self h =
       (with_act_func bound (Some LambdaId) (Some (PyInt 1)), Ok tt))
  ∧ (name = "rel" →
     set_handler self h =
       (with_act_func bound (Some (BoundAct h rel))
                      (Some (BoundDeriv h rel)), Ok tt))
  ∧ (name ∉ ["sigmoid"; "tanh"; "linear"; "rel"] →
     set_handler self h = (bound, Raise (KeyError name))).
Proof.
  intros Hcls name bound.
  unfold set_handler, FeedForwardLayer_set_handler. rewrite Hcls.
  cbn [kwargs with_handler]. fold name. fold bound.
  rewrite activation_functions_lookup.
  split_and!.
  - intros Hnone. unfold name, kwargs_get. by rewrite Hnone.
  - by intros ->.
  - by intros ->.
  - by intros ->.
  - by intros ->.
  - intros Hout.
    repeat case_bool_decide; try done; exfalso; apply Hout; set_solver.
Qed.

(** C8: FeedForwardLayer.set_handler stores the new handler and takes
    (act_func, act_func_deriv) from the table with the keys sigmoid,
    tanh, linear and rel at kwargs.get('act_func', 'tanh'). The layer it
    leaves has handler = the new handler, act_func and act_func_deriv =
    the bound methods of that handler for sigmoid, tanh and rel, the
    pair (lambda x: x, 1) for linear, the tanh pair when kwargs has no
    act_func, and every other attribute as before; for every other name
    it raises KeyError on that name, with the handler stored and
    act_func and act_func_deriv as they were. *)
Theorem set_handler_resolves_activation (self : layer (R:=R)) (h : Handler) :
  cls self = FeedForwardLayer →
  let name := kwargs_get (kwargs self) "act_func" "tanh" in
  let resolved f d :=
    ({| cls := cls self; in_size := in_size self; kwargs := kwargs self;
        out_size := out_size self;
        sink_layers := sink_layers self; source_layers := source_layers self;
        handler := Some h; act_func := Some f; act_func_deriv := Some d |},
     Ok tt) in
  (kwargs self !! "act_func" = None →
   set_handler self h = resolved (BoundAct h tanh) (BoundDeriv h tanh))
  ∧ (name = "sigmoid" →
     set_handler self h = resolved (BoundAct h sigmoid) (BoundDeriv h sigmoid))
  ∧ (name = "tanh" →
     set_handler self h = resolved (BoundAct h tanh) (BoundDeriv h tanh))
  ∧ (name = "linear" → set_handler self h = resolved LambdaId (PyInt 1))
  ∧ (name = "rel" →
     set_handler self h = resolved (BoundAct h rel) (BoundDeriv h rel))
  ∧ (name ∉ ["sigmoid"; "tanh"; "linear"; "rel"] →
     set_handler self h =
       ({| cls := cls self; in_size := in_size self; kwargs := kwargs self;
           out_size := out_size self;
           sink_layers := sink_layers self;
           source_layers := source_layers self;
           handler := Some h;
           act_func := act_func self;
           act_func_deriv := act_func_deriv self |},
        Raise (KeyError name)))
  ∧ handler (set_handler self h).1 = Some h
  ∧ (name ∈ ["sigmoid"; "tanh"; "linear"; "rel"] →
     (set_handler self h).2 = Ok tt
     ∧ is_Some (act_func (set_handler self h).1)
     ∧ is_Some (act_func_deriv (set_handler self h).1)).
Proof.
  intros Hcls name resolved.
  destruct (set_handler_cases self h Hcls)
    as (Hdefault & Hsigmoid & Htanh & Hlinear & Hrel & Hother).
  fold name in Hdefault, Hsigmoid, Htanh, Hlinear, Hrel, Hother.
  split_and!.
  - intros Hnone. by rewrite (Htanh (Hdefault Hnone)).
  - intros Hname. by rewrite (Hsigmoid Hname).
  - intros Hname. by rewrite (Htanh Hname).
  - intros Hname. by rewrite (Hlinear Hname).
  - intros Hname. by rewrite (Hrel Hname).
  - intros Hname. by rewrite (Hother Hname).
  - destruct (decide (name ∈ ["sigmoid"; "tanh"; "linear"; "rel"]))
      as [Hin|Hout]; [|by rewrite (Hother Hout)].
    apply elem_of_cons in Hin as [Hn|Hin]; [by rewrite (Hsigmoid Hn)|].
    apply elem_of_cons in Hin as [Hn|Hin]; [by rewrite (Htanh Hn)|].
    apply elem_of_cons in Hin as [Hn|Hin]; [by rewrite (Hlinear Hn)|].
    apply elem_of_cons in Hin as [Hn|Hin]; [by rewrite (Hrel Hn)|].
    by apply elem_of_nil in Hin.
  - intros Hin.
    apply elem_of_cons in Hin as [Hn|Hin];
      [rewrite (Hsigmoid Hn); by split_and!|].
    apply elem_of_cons in Hin as [Hn|Hin];
      [rewrite (Htanh Hn); by split_and!|].
    apply elem_of_cons in Hin as [Hn|Hin];
      [rewrite (Hlinear Hn); by split_and!|].
    apply elem_of_cons in Hin as [Hn|Hin];
      [rewrite (Hrel Hn); by split_and!|].
    by apply elem_of_nil in Hin.
Qed.

(** The other variants only store the handler. *)
Lemma set_handler_other (self : layer (R:=R)) (h : Handler) :
  cls self ≠ FeedForwardLayer →
  set_handler self h = (with_handler self (Some h), Ok tt).
Proof. intros Hcls. unfold set_handler. by destruct (cls self). Qed.

(** C10: the forward and the backward pass of an InputLayer and of a
    NoOpLayer return normally and leave every buffer as it was, whatever
    the handler attribute holds, None included; a layer just constructed
    has handler None. The passes receive the layer and return no layer:
    they assign no attribute. *)
Theorem noop_passes_change_nothing (self : layer (R:=R))
    (parameters gradient_buffer : gmap string ndarray)
    (input_buffer output_buffer in_delta_buffer out_delta_buffer : ndarray)
    (st : store R) :
  cls self = InputLayer ∨ cls self = NoOpLayer →
  forward_pass self parameters input_buffer output_buffer st = (Ok tt, st)
  ∧ backward_pass self parameters input_buffer output_buffer
      in_delta_buffer out_delta_buffer gradient_buffer st = (Ok tt, st).
Proof.
  intros [Hcls|Hcls]; unfold forward_pass, backward_pass; by rewrite Hcls.
Qed.

Lemma constructed_unbound (c : layer_class) size in_sz sinks sources kw
    (self : layer (R:=R)) :
  construct c size in_sz sinks sources kw = Ok self →
  cls self = c ∧ handler self = None.
Proof.
  destruct c; cbn [construct];
    unfold InputLayer_init, NoOpLayer_init, FeedForwardLayer_init,
      LayerBase_init, assert;
    destruct (validate_kwargs _ kw); cbn; try done.
  - by intros [= <-].
  - destruct (negb (truthy in_sz)); cbn; [|done]. by intros [= <-].
  - destruct (py_eq size in_sz); cbn; [|done]. by intros [= <-].
  - by intros [= <-].
Qed.

End Binding.

(** ** The registry *)

Section Registry_properties.

Import Registry.

Lemma scan_found (typename : string) (cs : list pyclass) (c : pyclass) :
  c ∈ cs → class_name c = typename →
  ∃ c', scan typename cs = Ok c' ∧ class_name c' = typename ∧ c' ∈ cs.
Proof.
  intros Hin Hname. induction cs as [|c0 cs IH]; [by apply elem_of_nil in Hin|].
  cbn. case_bool_decide as Hc0.
  - exists c0. split_and!; [done|done|by left].
  - apply elem_of_cons in Hin as [->|Hin]; [congruence|].
    destruct (IH Hin) as (c' & -> & Hn & Hin'). exists c'. split_and!; [done|done|by right].
Qed.

Lemma scan_ok (typename : string) (cs : list pyclass) (c : pyclass) :
  scan typename cs = Ok c → c ∈ cs ∧ class_name c = typename.
Proof.
  induction cs as [|c0 cs IH]; cbn; [done|].
  case_bool_decide as Hc0.
  - intros [= <-]. split; [by left|done].
  - intros [Hin Hn]%IH. split; [by right|done].
Qed.

Lemma scan_missing (typename : string) (cs : list pyclass) :
  (∀ c, c ∈ cs → class_name c ≠ typename) →
  scan typename cs =
    Raise (TypeError (Format "Layer-type '{}' unknown!" [ArgStr typename])).
Proof.
  induction cs as [|c0 cs IH]; cbn; [done|]. intros Hall.
  case_bool_decide as Hc0.
  - exfalso. eapply Hall; [by left|done].
  - apply IH. intros c Hc. apply Hall. by right.
Qed.

Lemma pyclass_rect' (P : pyclass → Prop) :
  (∀ name subs, Forall P subs → P (PyClass name subs)) → ∀ c, P c.
Proof.
  intros Hstep. fix IH 1. intros [name subs]. apply Hstep.
  induction subs as [|s subs IHsubs]; constructor; [apply IH|apply IHsubs].
Qed.

(** Every inheritor of a class is a smaller hierarchy than the class. *)
Lemma get_inheritors_smaller (c d : pyclass) :
  d ∈ get_inheritors c → class_count d < class_count c.
Proof.
  revert d. induction c as [name subs IH] using pyclass_rect'.
  intros d.
  change (get_inheritors (PyClass name subs))
    with (flat_map (λ s, s :: get_inheritors s) subs).
  change (class_count (PyClass name subs))
    with (S (list_sum (map class_count subs))).
  induction IH as [|s subs Hs _ IHsubs].
  - by intros ?%elem_of_nil.
  - change (d ∈ ((s :: get_inheritors s)
                ++ flat_map (λ s, s :: get_inheritors s) subs)%list
            → class_count d
              < S (class_count s + list_sum (map class_count subs))).
    intros [[->|Hin]%elem_of_cons|Hin]%elem_of_app.
    + lia.
    + specialize (Hs _ Hin). lia.
    + specialize (IHsubs Hin). lia.
Qed.

Lemma get_inheritors_irrefl (c : pyclass) : c ∉ get_inheritors c.
Proof. intros Hin%get_inheritors_smaller. lia. Qed.

(** C9: get_layer_class_from_typename returns, for the name of every
    class among the inheritors of LayerBase, one of these classes whose
    name is the name asked for; for a name that none of them has it
    raises TypeError with the message Layer-type '{}' unknown! formatted
    with the name; and it never returns the class LayerBase itself. In
    this module the inheritors are InputLayer, NoOpLayer and
    FeedForwardLayer. *)
Theorem registry_lookup (LayerBase_class : pyclass) :
  (∀ c, c ∈ get_inheritors LayerBase_class →
     ∃ c', get_layer_class_from_typename LayerBase_class (class_name c) = Ok c'
           ∧ class_name c' = class_name c
           ∧ c' ∈ get_inheritors LayerBase_class)
  ∧ (∀ typename,
       (∀ c, c ∈ get_inheritors LayerBase_class → class_name c ≠ typename) →
       get_layer_class_from_typename LayerBase_class typename =
         Raise (TypeError (Format "Layer-type '{}' unknown!" [ArgStr typename])))
  ∧ (∀ typename,
       get_layer_class_from_typename LayerBase_class typename ≠ Ok LayerBase_class)
  ∧ (∀ c, c ≠ LayerBase →
       get_layer_class_from_typename (class_object LayerBase)
         (class_name (class_object c)) = Ok (class_object c))
  ∧ get_layer_class_from_typename (class_object LayerBase) "LayerBase" =
      Raise (TypeError (Format "Layer-type '{}' unknown!" [ArgStr "LayerBase"]))
  ∧ get_layer_class_from_typename (class_object LayerBase) "inputlayer" =
      Raise (TypeError (Format "Layer-type '{}' unknown!" [ArgStr "inputlayer"])).
Proof.
  unfold get_layer_class_from_typename. split_and!.
  - intros c Hc. by apply (scan_found _ _ c).
  - intros typename Hnone. by apply scan_missing.
  - intros typename [Hin _]%scan_ok. by apply get_inheritors_irrefl in Hin.
  - by intros [].
  - done.
  - done.
Qed.

End Registry_properties.

(** ** Buffers and tabulated matrices *)

Section Arrays.

Context {R : Type}.
Implicit Types (F G : matrix (R:=R)) (st : store R) (a : ndarray).

Lemma tabulate2_S m n F :
  tabulate2 (S m) n F = (tabulate2 m n F ++ map (F m) (seq 0 n))%list.
Proof.
  unfold tabulate2. rewrite seq_S, flat_map_app. cbn. by rewrite app_nil_r.
Qed.

Lemma length_tabulate2 m n F : length (tabulate2 m n F) = m * n.
Proof.
  induction m as [|m IH]; [done|].
  rewrite tabulate2_S, length_app, IH, length_map, length_seq. lia.
Qed.

Lemma nth_tabulate2 m n F i j d :
  i < m → j < n → nth (i * n + j) (tabulate2 m n F) d = F i j.
Proof.
  induction m as [|m IH]; [lia|]. intros Hi Hj.
  rewrite tabulate2_S. destruct (decide (i = m)) as [->|Hne].
  - rewrite app_nth2; rewrite length_tabulate2; [|lia].
    replace (m * n + j - m * n) with j by lia.
    rewrite (nth_indep _ d (F m 0)) by (by rewrite length_map, length_seq).
    rewrite (map_nth (F m)). by rewrite seq_nth.
  - rewrite app_nth1; [apply IH; lia|].
    rewrite length_tabulate2. nia.
Qed.

Lemma tabulate2_ext m n F G :
  (∀ i j, i < m → j < n → F i j = G i j) → tabulate2 m n F = tabulate2 m n G.
Proof.
  induction m as [|m IH]; [done|]. intros Hext.
  rewrite !tabulate2_S. f_equal.
  - apply IH. intros i j Hi Hj. apply Hext; lia.
  - apply map_ext_in. intros j [_ Hj]%in_seq. apply Hext; lia.
Qed.

Lemma map_tabulate2 (f : R → R) m n F :
  map f (tabulate2 m n F) = tabulate2 m n (λ i j, f (F i j)).
Proof.
  induction m as [|m IH]; [done|].
  by rewrite !tabulate2_S, map_app, IH, map_map.
Qed.

Lemma data_insert_eq st a l (d : list R) :
  base a = l → l < length st → data (<[l:=d]> st) a = d.
Proof.
  intros <- Hl. unfold data. by rewrite list_lookup_insert_eq.
Qed.

Lemma data_insert_ne st a l (d : list R) :
  base a ≠ l → data (<[l:=d]> st) a = data st a.
Proof.
  intros Hl. unfold data. by rewrite list_lookup_insert_ne.
Qed.

Lemma data_app_l st a (d : list R) :
  base a < length st → data (st ++ [d]) a = data st a.
Proof. intros Hl. unfold data. by rewrite lookup_app_l. Qed.

Lemma data_app_r st a (d : list R) :
  base a = length st → data (st ++ [d]) a = d.
Proof.
  intros Hl. unfold data. rewrite Hl.
  rewrite lookup_app_r by lia. by rewrite Nat.sub_diag.
Qed.

Lemma get_ext (h : Handler) st st' x i j :
  data st (array_of x) = data st' (array_of x) →
  get h st x i j = get h st' x i j.
Proof. intros Hd. destruct x; cbn in *; by rewrite Hd. Qed.

Lemma mat_dot_ext (h : Handler) p (A A' B B' : matrix (R:=R)) i j :
  (∀ k, A i k = A' i k) → (∀ k, B k j = B' k j) →
  mat_dot h p A B i j = mat_dot h p A' B' i j.
Proof.
  intros HA HB. unfold mat_dot. f_equal. apply map_ext. intros k.
  by rewrite HA, HB.
Qed.

Lemma column_sum_ext (h : Handler) m (A A' : matrix (R:=R)) j :
  (∀ i, A i j = A' i j) → column_sum h m A j = column_sum h m A' j.
Proof.
  intros HA. unfold column_sum. f_equal. apply map_ext. intros i. by rewrite HA.
Qed.

(** A buffer that holds a tabulated matrix reads back its cells. *)
Lemma cells_tabulate2 (h : Handler) m n F i j :
  i < m → j < n → cells h n (tabulate2 m n F) i j = F i j.
Proof. intros Hi Hj. unfold cells. by apply nth_tabulate2. Qed.

End Arrays.

(** ** The passes of a FeedForwardLayer *)

Section Passes.

Context {R : Type}.
Implicit Types (st : store R) (h : Handler (R:=R)).

Lemma bind_ret {A B} (a : A) (k : A → M (R:=R) B) st : (mret a ≫= k) st = k a st.
Proof. done. Qed.

Lemma bind_ok {A B} (m : M (R:=R) A) (k : A → M B) st a st' :
  m st = (Ok a, st') → (m ≫= k) st = k a st'.
Proof. intros Hm. unfold mbind, M_bind. by rewrite Hm. Qed.

Lemma bind_raise {A B} (m : M (R:=R) A) (k : A → M B) st e st' :
  m st = (Raise e, st') → (m ≫= k) st = (Raise e, st').
Proof. intros Hm. unfold mbind, M_bind. by rewrite Hm. Qed.

(** What the forward pass leaves in the output buffer before the
    activation is called: the product plus the bias. *)
Lemma affine_written {A} h (WX W_bias input_buffer output_buffer : ndarray)
    (t b f n : nat) (k : unit → M (R:=R) A) st :
  shape WX = [f; n] →
  base output_buffer < length st →
  base W_bias ≠ base output_buffer →
  let flat_input := H_reshape input_buffer [t * b; f] in
  let flat_output := H_reshape output_buffer [t * b; n] in
  (H_dot h (Arr flat_input) (Arr WX) flat_output ≫= λ _,
   H_add_mv h flat_output W_bias flat_output ≫= k) st =
  k tt
    (<[base output_buffer :=
         tabulate2 (t * b) n
           (λ i j, h_add h
                     (mat_dot h f (cells h f (data st input_buffer))
                                  (cells h n (data st WX)) i j)
                     (nth j (data st W_bias) (h_zero h)))]> st).
Proof.
  intros HWs Hout Hne flat_input flat_output.
  erewrite bind_ok by reflexivity.
  erewrite bind_ok by reflexivity.
  unfold H_add_mv, write, dot_cell.
  change (base flat_output) with (base output_buffer).
  change (rows (Arr flat_input)) with (t * b).
  change (cols (Arr flat_input)) with f.
  change (rows (Arr flat_output)) with (t * b).
  change (cols (Arr flat_output)) with n.
  replace (cols (Arr WX)) with n by (cbn; by rewrite HWs).
  rewrite list_insert_insert_eq. f_equal. f_equal.
  apply tabulate2_ext. intros i j Hi Hj.
  rewrite (data_insert_ne _ W_bias) by done. f_equal.
  cbn [get flat_output H_reshape shape nth].
  rewrite (data_insert_eq _ _ (base output_buffer)) by done.
  rewrite cells_tabulate2 by done.
  cbn [get flat_input H_reshape shape nth]. by rewrite HWs.
Qed.

Lemma forward_pass_bound (self : layer (R:=R)) (h h' : Handler) (m : method)
    (parameters : gmap string ndarray) (WX W_bias input_buffer output_buffer : ndarray)
    (t b f n : nat) (st : store R) :
  cls self = FeedForwardLayer →
  handler self = Some h →
  act_func self = Some (BoundAct h' m) →
  out_size self = Some n →
  parameters !! "W" = Some WX → parameters !! "b" = Some W_bias →
  shape input_buffer = [t; b; f] →
  shape WX = [f; n] →
  base output_buffer < length st →
  base W_bias ≠ base output_buffer →
  forward_pass self parameters input_buffer output_buffer st =
    (Ok tt,
     <[base output_buffer :=
         tabulate2 (t * b) n
           (λ i j, act_of h' m
                     (h_add h
                        (mat_dot h f (cells h f (data st input_buffer))
                                     (cells h n (data st WX)) i j)
                        (nth j (data st W_bias) (h_zero h))))]> st).
Proof.
  intros Hcls Hh Hact Hn HW Hb Hin HWs Hout Hne.
  unfold forward_pass. rewrite Hcls.
  unfold FeedForwardLayer_forward_pass, getitem, unpack3, bound, as_dim.
  rewrite HW, Hb, Hin, Hh, Hn, Hact.
  rewrite !bind_ret. cbn beta iota. rewrite ?bind_ret.
  rewrite (affine_written h WX W_bias input_buffer output_buffer t b f n)
    by done.
  unfold call_act_func, write. cbn [H_reshape base].
  rewrite (data_insert_eq _ _ (base output_buffer)) by done.
  by rewrite list_insert_insert_eq, map_tabulate2.
Qed.

Lemma insert_fresh st (z d : list R) :
  <[length st := d]> (st ++ [z]) = (st ++ [d])%list.
Proof.
  rewrite insert_app_r_alt by lia. by rewrite Nat.sub_diag.
Qed.

(** One backward pass with a derivative bound from a handler: the store
    gains the temporary [dZ], [in_delta_buffer] is increased by
    [dZ · Wᵗ], and the two gradient buffers are overwritten with
    [Xᵗ · dZ] and the column sums of [dZ]. *)
Lemma backward_pass_bound (self : layer (R:=R)) (h h' : Handler) (m : method)
    (parameters gradient_buffer : gmap string ndarray)
    (WX W_bias dWX dW_bias : ndarray)
    (input_buffer output_buffer in_delta_buffer out_delta_buffer : ndarray)
    (t b f n : nat) (st : store R) :
  cls self = FeedForwardLayer →
  handler self = Some h →
  act_func_deriv self = Some (BoundDeriv h' m) →
  out_size self = Some n →
  parameters !! "W" = Some WX → parameters !! "b" = Some W_bias →
  gradient_buffer !! "W" = Some dWX → gradient_buffer !! "b" = Some dW_bias →
  shape input_buffer = [t; b; f] →
  shape WX = [f; n] →
  base input_buffer < length st → base output_buffer < length st →
  base in_delta_buffer < length st → base out_delta_buffer < length st →
  base WX < length st → base dWX < length st →
  base input_buffer ≠ base in_delta_buffer →
  let dZ_data := zip_with (deriv_of h' m None) (data st output_buffer)
                          (data st out_delta_buffer) in
  let dZ := cells h n dZ_data in
  let X := cells h f (data st input_buffer) in
  let W := cells h n (data st WX) in
  let D := cells h f (data st in_delta_buffer) in
  backward_pass self parameters input_buffer output_buffer
    in_delta_buffer out_delta_buffer gradient_buffer st =
    (Ok tt,
     <[base dW_bias := map (column_sum h (t * b) dZ) (seq 0 n)]>
       (<[base dWX := tabulate2 f n (mat_dot h (t * b) (transpose X) dZ)]>
          (<[base in_delta_buffer :=
               tabulate2 (t * b) f
                 (λ i l, h_add h (D i l) (mat_dot h n dZ (transpose W) i l))]>
             (st ++ [dZ_data])%list))).
Proof.
  intros Hcls Hh Hact Hn HW Hb HdW Hdb Hin HWs
    Hvi Hvo Hvd Hvod HvW HvdW Hne dZ_data dZ X W D.
  unfold backward_pass. rewrite Hcls.
  unfold FeedForwardLayer_backward_pass, getitem, unpack3, bound, as_dim.
  rewrite HW, Hb, HdW, Hdb, Hin, Hh, Hn, Hact.
  rewrite !bind_ret.
  erewrite bind_ok by reflexivity.
  rewrite !bind_ret. cbn beta iota. rewrite ?bind_ret.
  set (zeros := replicate _ _).
  set (dZ_array := {| base := length st; shape := shape output_buffer |}).
  set (flat_dZ := H_reshape dZ_array [t * b; n]).
  set (flat_input := H_reshape input_buffer [t * b; f]).
  set (flat_in_delta := H_reshape in_delta_buffer [t * b; f]).
  unfold call_act_func_deriv.
  erewrite bind_ok by reflexivity.
  erewrite bind_ok by reflexivity.
  erewrite bind_ok by reflexivity.
  unfold H_sum, write.
  change (base dZ_array) with (length st).
  rewrite !(data_app_l st) by done.
  rewrite insert_fresh. fold dZ_data.
  set (stZ := (st ++ [dZ_data])%list).
  change (base flat_in_delta) with (base in_delta_buffer).
  change (rows (Arr flat_dZ)) with (t * b).
  change (cols (Arr flat_dZ)) with n.
  change (rows (ArrT flat_input)) with f.
  change (cols (ArrT flat_input)) with (t * b).
  replace (cols (ArrT WX)) with f by (cbn; by rewrite HWs).
  assert (HdZ : ∀ st', data st' flat_dZ = dZ_data →
                       ∀ i j, get h st' (Arr flat_dZ) i j = dZ i j).
  { intros st' Hd i j. cbn [get flat_dZ H_reshape shape nth]. by rewrite Hd. }
  assert (HstZ : data stZ flat_dZ = dZ_data) by (by apply data_app_r).
  assert (Hold : ∀ a, base a < length st → data stZ a = data st a)
    by (intros a Ha; by apply data_app_l).
  f_equal. f_equal; [|f_equal; [|f_equal]].
  - apply map_ext. intros j. apply column_sum_ext. intros i. apply HdZ.
    rewrite !data_insert_ne by (cbn; lia). done.
  - apply tabulate2_ext. intros l j _ _. unfold dot_cell.
    apply mat_dot_ext.
    + intros i. cbn [get transpose flat_input H_reshape shape nth base].
      unfold transpose.
      rewrite data_insert_ne by done.
      by rewrite Hold.
    + intros i. apply HdZ. rewrite data_insert_ne by (cbn; lia). done.
  - apply tabulate2_ext. intros i l _ _. f_equal.
    + cbn [get flat_in_delta H_reshape shape nth base].
      by rewrite Hold.
    + apply mat_dot_ext.
      * intros k. by apply HdZ.
      * intros k. cbn [get]. rewrite HWs. cbn [nth].
        by rewrite Hold.
Qed.

Ltac store_lengths :=
  repeat first [rewrite length_insert | rewrite length_app];
  cbn [length]; lia.

Ltac read_buffer :=
  repeat first
    [ rewrite data_insert_ne by (cbn [base]; congruence)
    | rewrite data_insert_eq by (done || store_lengths)
    | rewrite data_app_l by (done || store_lengths) ].

(** Two backward passes in a row on the same buffers, the second with
    another [out_delta_buffer]: [in_delta_buffer] has received both
    contributions, the gradient buffers hold those of the second pass. *)
Lemma backward_pass_twice (self : layer (R:=R)) (h h' : Handler) (m : method)
    (parameters gradient_buffer : gmap string ndarray)
    (WX W_bias dWX dW_bias : ndarray)
    (input_buffer output_buffer in_delta_buffer : ndarray)
    (out_delta_1 out_delta_2 : ndarray)
    (t b f n : nat) (st : store R) :
  cls self = FeedForwardLayer →
  handler self = Some h →
  act_func_deriv self = Some (BoundDeriv h' m) →
  out_size self = Some n →
  parameters !! "W" = Some WX → parameters !! "b" = Some W_bias →
  gradient_buffer !! "W" = Some dWX → gradient_buffer !! "b" = Some dW_bias →
  shape input_buffer = [t; b; f] →
  shape WX = [f; n] →
  Forall (λ a, base a < length st)
    [input_buffer; output_buffer; in_delta_buffer; out_delta_1; out_delta_2;
     WX; dWX; dW_bias] →
  Forall (λ a, base a ∉ [base in_delta_buffer; base dWX; base dW_bias])
    [input_buffer; output_buffer; out_delta_2; WX] →
  NoDup [base in_delta_buffer; base dWX; base dW_bias] →
  let dZ od := cells h n (zip_with (deriv_of h' m None) (data st output_buffer)
                                   (data st od)) in
  let X := cells h f (data st input_buffer) in
  let W := cells h n (data st WX) in
  let D := cells h f (data st in_delta_buffer) in
  ∃ st1 st2,
    backward_pass self parameters input_buffer output_buffer
      in_delta_buffer out_delta_1 gradient_buffer st = (Ok tt, st1)
    ∧ backward_pass self parameters input_buffer output_buffer
        in_delta_buffer out_delta_2 gradient_buffer st1 = (Ok tt, st2)
    ∧ data st2 in_delta_buffer =
        tabulate2 (t * b) f
          (λ i l, h_add h
                    (h_add h (D i l)
                       (mat_dot h n (dZ out_delta_1) (transpose W) i l))
                    (mat_dot h n (dZ out_delta_2) (transpose W) i l))
    ∧ data st2 dWX =
        tabulate2 f n (mat_dot h (t * b) (transpose X) (dZ out_delta_2))
    ∧ data st2 dW_bias = map (column_sum h (t * b) (dZ out_delta_2)) (seq 0 n).
Proof.
  intros Hcls Hh Hact Hn HW Hb HdW Hdb Hin HWs Hvalid Hsep Hdup dZ X W D.
  repeat (apply Forall_cons in Hvalid as [? Hvalid]).
  repeat (apply Forall_cons in Hsep as [? Hsep]).
  repeat match goal with
         | Hx : _ ∉ [_; _; _] |- _ =>
             apply not_elem_of_cons in Hx as [? Hx];
             apply not_elem_of_cons in Hx as [? Hx];
             apply not_elem_of_cons in Hx as [? _]
         end.
  apply NoDup_cons in Hdup as [Hd1 Hdup].
  apply not_elem_of_cons in Hd1 as [? Hd1].
  apply not_elem_of_cons in Hd1 as [? _].
  apply NoDup_cons in Hdup as [Hd2 _].
  apply not_elem_of_cons in Hd2 as [? _].
  eexists _, _. split.
  { by apply (backward_pass_bound self h h' m _ _ WX W_bias dWX dW_bias
                _ _ _ _ t b f n). }
  split.
  { apply (backward_pass_bound self h h' m _ _ WX W_bias dWX dW_bias
             _ _ _ _ t b f n); try done; store_lengths. }
  split_and!.
  - read_buffer. apply tabulate2_ext. intros i l Hi Hl.
    read_buffer. rewrite cells_tabulate2 by done. done.
  - read_buffer. done.
  - read_buffer. done.
Qed.

(** Binding a handler to a layer whose [act_func] names a method of
    the handler stores the two bound methods. *)
Lemma set_handler_method (self : layer (R:=R)) h (m : method) :
  cls self = FeedForwardLayer →
  kwargs_get (kwargs self) "act_func" "tanh" = method_name m →
  set_handler self h =
    (with_act_func (with_handler self (Some h))
       (Some (BoundAct h m)) (Some (BoundDeriv h m)), Ok tt).
Proof.
  intros Hcls Hname.
  destruct (set_handler_cases self h Hcls)
    as (_ & Hsigmoid & Htanh & _ & Hrel & _).
  destruct m; [by apply Hsigmoid | by apply Htanh | by apply Hrel].
Qed.

(** For the activations sigmoid, tanh and rel (tanh when kwargs names
    none), the forward pass of a FeedForwardLayer with a handler bound
    returns normally and leaves in the output buffer, through the
    flattened view, act_func applied to each cell of flat_input · W plus
    the bias; no other buffer changes. *)
Theorem forward_pass_computes_activation (self : layer (R:=R)) h (m : method)
    (parameters : gmap string ndarray)
    (WX W_bias input_buffer output_buffer : ndarray) (t b f n : nat) st :
  cls self = FeedForwardLayer →
  kwargs_get (kwargs self) "act_func" "tanh" = method_name m →
  out_size self = Some n →
  parameters !! "W" = Some WX → parameters !! "b" = Some W_bias →
  shape input_buffer = [t; b; f] →
  shape WX = [f; n] →
  base output_buffer < length st →
  base W_bias ≠ base output_buffer →
  forward_pass (set_handler self h).1 parameters input_buffer output_buffer st =
    (Ok tt,
     <[base output_buffer :=
         tabulate2 (t * b) n
           (λ i j, act_of h m
                     (h_add h
                        (mat_dot h f (cells h f (data st input_buffer))
                                     (cells h n (data st WX)) i j)
                        (nth j (data st W_bias) (h_zero h))))]> st).
Proof.
  intros Hcls Hname Hn HW Hb Hin HWs Hout Hne.
  rewrite (set_handler_method self h m Hcls Hname). cbn [fst].
  by apply (forward_pass_bound _ h h m _ WX W_bias).
Qed.

(** For the activations sigmoid, tanh and rel, two backward passes in a
    row with the same in_delta_buffer and two out delta buffers return
    normally; in_delta_buffer then holds its first content plus
    dZ1 · Wᵗ plus dZ2 · Wᵗ, and the gradient buffers hold Xᵗ · dZ2 and
    the column sums of dZ2, where dZk is the derivative applied to the
    output and the k-th out delta. *)
Theorem backward_pass_accumulates_delta (self : layer (R:=R)) h (m : method)
    (parameters gradient_buffer : gmap string ndarray)
    (WX W_bias dWX dW_bias : ndarray)
    (input_buffer output_buffer in_delta_buffer : ndarray)
    (out_delta_1 out_delta_2 : ndarray)
    (t b f n : nat) st :
  cls self = FeedForwardLayer →
  kwargs_get (kwargs self) "act_func" "tanh" = method_name m →
  out_size self = Some n →
  parameters !! "W" = Some WX → parameters !! "b" = Some W_bias →
  gradient_buffer !! "W" = Some dWX → gradient_buffer !! "b" = Some dW_bias →
  shape input_buffer = [t; b; f] →
  shape WX = [f; n] →
  Forall (λ a, base a < length st)
    [input_buffer; output_buffer; in_delta_buffer; out_delta_1; out_delta_2;
     WX; dWX; dW_bias] →
  Forall (λ a, base a ∉ [base in_delta_buffer; base dWX; base dW_bias])
    [input_buffer; output_buffer; out_delta_2; WX] →
  NoDup [base in_delta_buffer; base dWX; base dW_bias] →
  let bound := (set_handler self h).1 in
  let dZ od := cells h n (zip_with (deriv_of h m None) (data st output_buffer)
                                   (data st od)) in
  let X := cells h f (data st input_buffer) in
  let W := cells h n (data st WX) in
  let D := cells h f (data st in_delta_buffer) in
  ∃ st1 st2,
    backward_pass bound parameters input_buffer output_buffer
      in_delta_buffer out_delta_1 gradient_buffer st = (Ok tt, st1)
    ∧ backward_pass bound parameters input_buffer output_buffer
        in_delta_buffer out_delta_2 gradient_buffer st1 = (Ok tt, st2)
    ∧ data st2 in_delta_buffer =
        tabulate2 (t * b) f
          (λ i l, h_add h
                    (h_add h (D i l)
                       (mat_dot h n (dZ out_delta_1) (transpose W) i l))
                    (mat_dot h n (dZ out_delta_2) (transpose W) i l))
    ∧ data st2 dWX =
        tabulate2 f n (mat_dot h (t * b) (transpose X) (dZ out_delta_2))
    ∧ data st2 dW_bias = map (column_sum h (t * b) (dZ out_delta_2)) (seq 0 n).
Proof.
  intros Hcls Hname Hn HW Hb HdW Hdb Hin HWs Hvalid Hsep Hdup bound.
  unfold bound. rewrite (set_handler_method self h m Hcls Hname). cbn [fst].
  by apply (backward_pass_twice _ h h m _ _ WX W_bias dWX dW_bias).
Qed.

(** *** The [linear] entry of the activation table *)

(** Binding a handler to a layer whose [act_func] is [linear] stores the
    pair [(lambda x: x, 1)]. *)
Lemma set_handler_linear (self : layer (R:=R)) h :
  cls self = FeedForwardLayer →
  kwargs self !! "act_func" = Some "linear" →
  set_handler self h =
    (with_act_func (with_handler self (Some h)) (Some LambdaId) (Some (PyInt 1)),
     Ok tt).
Proof.
  intros Hcls Hkw.
  apply (set_handler_cases self h Hcls).
  unfold kwargs_get. by rewrite Hkw.
Qed.

(** With [lambda x: x] as [act_func] the forward pass writes the product
    plus the bias and then raises: the call passes two arguments. *)
Lemma forward_pass_lambda (self : layer (R:=R)) h
    (parameters : gmap string ndarray)
    (WX W_bias input_buffer output_buffer : ndarray) (t b f n : nat) st :
  cls self = FeedForwardLayer →
  handler self = Some h →
  act_func self = Some LambdaId →
  out_size self = Some n →
  parameters !! "W" = Some WX → parameters !! "b" = Some W_bias →
  shape input_buffer = [t; b; f] →
  shape WX = [f; n] →
  base output_buffer < length st →
  base W_bias ≠ base output_buffer →
  forward_pass self parameters input_buffer output_buffer st =
    (Raise (TypeError (Format "<lambda>() takes exactly 1 argument (2 given)" [])),
     <[base output_buffer :=
         tabulate2 (t * b) n
           (λ i j, h_add h
                     (mat_dot h f (cells h f (data st input_buffer))
                                  (cells h n (data st WX)) i j)
                     (nth j (data st W_bias) (h_zero h)))]> st).
Proof.
  intros Hcls Hh Hact Hn HW Hb Hin HWs Hout Hne.
  unfold forward_pass. rewrite Hcls.
  unfold FeedForwardLayer_forward_pass, getitem, unpack3, bound, as_dim.
  rewrite HW, Hb, Hin, Hh, Hn, Hact.
  rewrite !bind_ret. cbn beta iota. rewrite ?bind_ret.
  by rewrite (affine_written h WX W_bias input_buffer output_buffer t b f n).
Qed.

(** Whatever the arguments, that forward pass does not return. *)
Lemma forward_pass_lambda_raises (self : layer (R:=R))
    (parameters : gmap string ndarray) (input_buffer output_buffer : ndarray) st :
  cls self = FeedForwardLayer →
  act_func self = Some LambdaId →
  is_ok (forward_pass self parameters input_buffer output_buffer st).1 = false.
Proof.
  intros Hcls Hact. unfold forward_pass. rewrite Hcls.
  unfold FeedForwardLayer_forward_pass, getitem, unpack3, bound, as_dim.
  rewrite Hact.
  destruct (parameters !! "W") as [WX|]; [|done].
  destruct (parameters !! "b") as [W_bias|]; [|done].
  destruct (shape input_buffer) as [|t [|b [|f [|]]]]; try done.
  destruct (handler self) as [h|]; [|done].
  by destruct (out_size self) as [n|].
Qed.

(** With the integer [1] as [act_func_deriv] the backward pass allocates
    the zero buffer [dZ] and raises at the call; no buffer is written. *)
Lemma backward_pass_int (self : layer (R:=R)) h (k : Z)
    (parameters gradient_buffer : gmap string ndarray)
    (WX W_bias dWX dW_bias : ndarray)
    (input_buffer output_buffer in_delta_buffer out_delta_buffer : ndarray)
    (t b f n : nat) st :
  cls self = FeedForwardLayer →
  handler self = Some h →
  act_func_deriv self = Some (PyInt k) →
  out_size self = Some n →
  parameters !! "W" = Some WX → parameters !! "b" = Some W_bias →
  gradient_buffer !! "W" = Some dWX → gradient_buffer !! "b" = Some dW_bias →
  shape input_buffer = [t; b; f] →
  backward_pass self parameters input_buffer output_buffer
    in_delta_buffer out_delta_buffer gradient_buffer st =
    (Raise (TypeError (Format "'int' object is not callable" [])),
     st ++ [replicate (size_of (shape output_buffer)) (h_zero h)]).
Proof.
  intros Hcls Hh Hact Hn HW Hb HdW Hdb Hin.
  unfold backward_pass. rewrite Hcls.
  unfold FeedForwardLayer_backward_pass, getitem, unpack3, bound, as_dim.
  by rewrite HW, Hb, HdW, Hdb, Hin, Hh, Hn, Hact.
Qed.

(** Whatever the arguments, that backward pass does not return, and the
    buffers that were there are as they were. *)
Lemma backward_pass_int_raises (self : layer (R:=R)) (k : Z)
    (parameters gradient_buffer : gmap string ndarray)
    (input_buffer output_buffer in_delta_buffer out_delta_buffer : ndarray) st :
  cls self = FeedForwardLayer →
  act_func_deriv self = Some (PyInt k) →
  ∃ e st',
    backward_pass self parameters input_buffer output_buffer
      in_delta_buffer out_delta_buffer gradient_buffer st = (Raise e, st')
    ∧ length st ≤ length st'
    ∧ ∀ a, base a < length st → data st' a = data st a.
Proof.
  intros Hcls Hact. unfold backward_pass. rewrite Hcls.
  unfold FeedForwardLayer_backward_pass, getitem, unpack3, bound, as_dim.
  rewrite Hact.
  destruct (parameters !! "W") as [WX|]; [|by eexists _, _].
  destruct (parameters !! "b") as [W_bias|]; [|by eexists _, _].
  destruct (gradient_buffer !! "W") as [dWX|]; [|by eexists _, _].
  destruct (gradient_buffer !! "b") as [dW_bias|]; [|by eexists _, _].
  destruct (handler self) as [h|]; [|by eexists _, _].
  assert (Hkeep : ∀ z : list R,
            length st ≤ length (st ++ [z])
            ∧ ∀ a, base a < length st → data (st ++ [z]) a = data st a).
  { intros z. split; [rewrite length_app; lia|].
    intros a Ha. by apply data_app_l. }
  destruct (shape input_buffer) as [|t [|b [|f [|]]]];
    try (eexists _, _; split; [reflexivity|apply Hkeep]).
  destruct (out_size self) as [n|];
    eexists _, _; (split; [reflexivity|apply Hkeep]).
Qed.

(** C1: a FeedForwardLayer with kwargs {'act_func': 'linear'} gets the
    pair (lambda x: x, 1) from set_handler. Its forward pass writes
    input · W + b into the output buffer and then raises TypeError,
    because act_func is called with two arguments; its backward pass
    raises TypeError at the call of the integer 1, with dZ left as the
    zero buffer it was allocated as and no other buffer written. *)
Theorem linear_layer_passes_raise (self : layer (R:=R)) h
    (parameters gradient_buffer : gmap string ndarray)
    (WX W_bias dWX dW_bias : ndarray)
    (input_buffer output_buffer in_delta_buffer out_delta_buffer : ndarray)
    (t b f n : nat) st :
  cls self = FeedForwardLayer →
  kwargs self !! "act_func" = Some "linear" →
  out_size self = Some n →
  parameters !! "W" = Some WX → parameters !! "b" = Some W_bias →
  gradient_buffer !! "W" = Some dWX → gradient_buffer !! "b" = Some dW_bias →
  shape input_buffer = [t; b; f] →
  shape WX = [f; n] →
  base output_buffer < length st →
  base W_bias ≠ base output_buffer →
  let bound := (set_handler self h).1 in
  (set_handler self h).2 = Ok tt
  ∧ act_func bound = Some LambdaId
  ∧ act_func_deriv bound = Some (PyInt 1)
  ∧ forward_pass bound parameters input_buffer output_buffer st =
      (Raise (TypeError (Format "<lambda>() takes exactly 1 argument (2 given)" [])),
       <[base output_buffer :=
           tabulate2 (t * b) n
             (λ i j, h_add h
                       (mat_dot h f (cells h f (data st input_buffer))
                                    (cells h n (data st WX)) i j)
                       (nth j (data st W_bias) (h_zero h)))]> st)
  ∧ backward_pass bound parameters input_buffer output_buffer
      in_delta_buffer out_delta_buffer gradient_buffer st =
      (Raise (TypeError (Format "'int' object is not callable" [])),
       st ++ [replicate (size_of (shape output_buffer)) (h_zero h)]).
Proof.
  intros Hcls Hkw Hn HW Hb HdW Hdb Hin HWs Hout Hne bound.
  unfold bound. rewrite (set_handler_linear self h Hcls Hkw). cbn [fst snd].
  split_and!; try done.
  - by apply (forward_pass_lambda _ h _ WX W_bias).
  - by apply (backward_pass_int _ h 1 _ _ WX W_bias dWX dW_bias _ _ _ _ t b f n).
Qed.

(** C3: on a FeedForwardLayer whose act_func is linear, with a handler
    bound, forward_pass never returns normally, whatever the parameters
    and the buffers: the activation is not applied. *)
Theorem forward_pass_linear_never_returns (self : layer (R:=R)) h
    (parameters : gmap string ndarray) (input_buffer output_buffer : ndarray) st :
  cls self = FeedForwardLayer →
  kwargs self !! "act_func" = Some "linear" →
  is_ok (forward_pass (set_handler self h).1
           parameters input_buffer output_buffer st).1 = false.
Proof.
  intros Hcls Hkw. rewrite (set_handler_linear self h Hcls Hkw). cbn [fst].
  by apply forward_pass_lambda_raises.
Qed.

(** C4: on a FeedForwardLayer whose act_func is linear, with a handler
    bound, two backward passes in a row both raise, and every buffer
    that was there, in_delta_buffer and the gradient buffers among them,
    is as it was before the first: nothing is accumulated and nothing is
    overwritten. *)
Theorem backward_pass_linear_twice (self : layer (R:=R)) h
    (parameters gradient_buffer : gmap string ndarray)
    (input_buffer output_buffer in_delta_buffer : ndarray)
    (out_delta_1 out_delta_2 : ndarray) st :
  cls self = FeedForwardLayer →
  kwargs self !! "act_func" = Some "linear" →
  let bound := (set_handler self h).1 in
  ∃ e1 st1 e2 st2,
    backward_pass bound parameters input_buffer output_buffer
      in_delta_buffer out_delta_1 gradient_buffer st = (Raise e1, st1)
    ∧ backward_pass bound parameters input_buffer output_buffer
        in_delta_buffer out_delta_2 gradient_buffer st1 = (Raise e2, st2)
    ∧ ∀ a, base a < length st → data st2 a = data st a.
Proof.
  intros Hcls Hkw bound.
  unfold bound. rewrite (set_handler_linear self h Hcls Hkw). cbn [fst].
  set (lin := with_act_func _ _ _).
  destruct (backward_pass_int_raises lin 1 parameters gradient_buffer
              input_buffer output_buffer in_delta_buffer out_delta_1 st)
    as (e1 & st1 & Hrun1 & Hlen1 & Hkeep1); [done..|].
  destruct (backward_pass_int_raises lin 1 parameters gradient_buffer
              input_buffer output_buffer in_delta_buffer out_delta_2 st1)
    as (e2 & st2 & Hrun2 & _ & Hkeep2); [done..|].
  exists e1, st1, e2, st2. split_and!; [done..|].
  intros a Ha. rewrite <- (Hkeep1 a Ha). apply Hkeep2. lia.
Qed.

End Passes.

(** ** The model run on the example buffers *)

Section Examples.

Import Example.

Ltac distinct_bases :=
  let Hin := fresh "Hin" in
  intros Hin;
  repeat (apply elem_of_cons in Hin as [Hin|Hin]; [discriminate Hin|]);
  by apply elem_of_nil in Hin.

Lemma linear_layer_passes_raise_witness :
  act_func (bound_layer "linear") = Some LambdaId
  ∧ act_func_deriv (bound_layer "linear") = Some (PyInt 1)
  ∧ forward_pass (bound_layer "linear") parameters input_buffer output_buffer
      buffers =
      (Raise (TypeError (Format "<lambda>() takes exactly 1 argument (2 given)" [])),
       <[3 := [5; -2; 7; 0]%Z]> buffers)
  ∧ backward_pass (bound_layer "linear") parameters input_buffer output_buffer
      in_delta_buffer out_delta_buffer gradient_buffer buffers =
      (Raise (TypeError (Format "'int' object is not callable" [])),
       buffers ++ [[0; 0; 0; 0]%Z]).
Proof.
  destruct (linear_layer_passes_raise
              (feed_forward {[ "act_func" := "linear" ]}) int_handler
              parameters gradient_buffer WX W_bias dWX dW_bias
              input_buffer output_buffer in_delta_buffer out_delta_buffer
              1 1 3 4 buffers)
    as (_ & Hact & Hderiv & Hforward & Hbackward);
    [reflexivity | reflexivity | reflexivity | reflexivity | reflexivity
    | reflexivity | reflexivity | reflexivity | reflexivity
    | cbn; lia | discriminate | ].
  split_and!; [exact Hact | exact Hderiv | exact Hforward | exact Hbackward].
Defined.

Lemma forward_pass_linear_never_returns_witness :
  is_ok (forward_pass (bound_layer "linear") parameters input_buffer
           output_buffer buffers).1 = false.
Proof.
  exact (forward_pass_linear_never_returns
           (feed_forward {[ "act_func" := "linear" ]}) int_handler
           parameters input_buffer output_buffer buffers eq_refl eq_refl).
Defined.

Lemma backward_pass_linear_twice_witness :
  ∃ e1 st1 e2 st2,
    backward_pass (bound_layer "linear") parameters input_buffer output_buffer
      in_delta_buffer out_delta_buffer gradient_buffer buffers = (Raise e1, st1)
    ∧ backward_pass (bound_layer "linear") parameters input_buffer output_buffer
        in_delta_buffer out_delta_buffer' gradient_buffer st1 = (Raise e2, st2)
    ∧ ∀ a, base a < length buffers → data st2 a = data buffers a.
Proof.
  exact (backward_pass_linear_twice
           (feed_forward {[ "act_func" := "linear" ]}) int_handler
           parameters gradient_buffer input_buffer output_buffer
           in_delta_buffer out_delta_buffer out_delta_buffer' buffers
           eq_refl eq_refl).
Defined.

Lemma FeedForwardLayer_parameter_structure_witness :
  ∃ self,
    FeedForwardLayer_init (R:=Z) (Some 4) (Some 3) [] [] {[ "act_func" := "rel" ]}
      = Ok self
    ∧ get_parameter_structure self =
        [("W", Mat (Some 3) (Some 4)); ("b", Vec (Some 4))].
Proof.
  destruct (FeedForwardLayer_parameter_structure (R:=Z) (Some 4) (Some 3) [] []
              {[ "act_func" := "rel" ]})
    as (self & Hinit & _ & _ & _ & Hshape & _).
  - intros k [v Hv]. by apply lookup_singleton_Some in Hv as [-> _].
  - exists self. split; [exact Hinit | exact (Hshape eq_refl eq_refl)].
Defined.

Lemma unknown_kwarg_is_rejected_witness :
  ∃ msg bad,
    construct (R:=Z) FeedForwardLayer (Some 4) (Some 3) [] []
      {[ "act_func" := "tanh"; "dropout" := "0.5" ]} = Raise (AssertionError msg)
    ∧ names msg bad = true
    ∧ is_Some (({[ "act_func" := "tanh"; "dropout" := "0.5" ]} : kwargs_t) !! bad)
    ∧ (bad ∉ allowed_keys FeedForwardLayer)
    ∧ (FeedForwardLayer ≠ FeedForwardLayer → bad = "dropout").
Proof.
  apply (unknown_kwarg_is_rejected (R:=Z) FeedForwardLayer (Some 4) (Some 3) [] []
           {[ "act_func" := "tanh"; "dropout" := "0.5" ]} "dropout").
  - exists "0.5". reflexivity.
  - intros Hin. apply list_elem_of_singleton in Hin. discriminate Hin.
Defined.

Lemma set_handler_resolves_activation_witness :
  set_handler (feed_forward ∅) int_handler =
    ({| cls := FeedForwardLayer; in_size := Some 3; kwargs := ∅;
        out_size := Some 4; sink_layers := []; source_layers := [];
        handler := Some int_handler;
        act_func := Some (BoundAct int_handler tanh);
        act_func_deriv := Some (BoundDeriv int_handler tanh) |}, Ok tt)
  ∧ set_handler (feed_forward {[ "act_func" := "softmax" ]}) int_handler =
      ({| cls := FeedForwardLayer; in_size := Some 3;
          kwargs := {[ "act_func" := "softmax" ]};
          out_size := Some 4; sink_layers := []; source_layers := [];
          handler := Some int_handler;
          act_func := None; act_func_deriv := None |},
       Raise (KeyError "softmax")).
Proof.
  split.
  - destruct (set_handler_resolves_activation (feed_forward ∅) int_handler eq_refl)
      as (Hdefault & _).
    apply Hdefault. reflexivity.
  - destruct (set_handler_resolves_activation
                (feed_forward {[ "act_func" := "softmax" ]}) int_handler eq_refl)
      as (_ & _ & _ & _ & _ & Hother & _).
    apply Hother.
    change (kwargs_get _ _ _) with "softmax".
    repeat (apply not_elem_of_cons; split; [discriminate|]).
    apply not_elem_of_nil.
Defined.

Lemma noop_passes_change_nothing_witness :
  handler input_layer = None
  ∧ forward_pass input_layer parameters input_buffer output_buffer buffers =
      (Ok tt, buffers)
  ∧ backward_pass input_layer parameters input_buffer output_buffer
      in_delta_buffer out_delta_buffer gradient_buffer buffers = (Ok tt, buffers)
  ∧ forward_pass noop_layer parameters input_buffer output_buffer buffers =
      (Ok tt, buffers)
  ∧ backward_pass noop_layer parameters input_buffer output_buffer
      in_delta_buffer out_delta_buffer gradient_buffer buffers = (Ok tt, buffers).
Proof.
  destruct (noop_passes_change_nothing input_layer parameters gradient_buffer
              input_buffer output_buffer in_delta_buffer out_delta_buffer buffers
              (or_introl eq_refl)) as [Hf Hb].
  destruct (noop_passes_change_nothing noop_layer parameters gradient_buffer
              input_buffer output_buffer in_delta_buffer out_delta_buffer buffers
              (or_intror eq_refl)) as [Hf' Hb'].
  split_and!; [reflexivity | exact Hf | exact Hb | exact Hf' | exact Hb'].
Defined.

Lemma registry_lookup_witness :
  Registry.get_layer_class_from_typename (Registry.class_object LayerBase)
    "FeedForwardLayer" = Ok (Registry.class_object FeedForwardLayer)
  ∧ Registry.get_layer_class_from_typename (Registry.class_object LayerBase)
      "Dense" =
      Raise (TypeError (Format "Layer-type '{}' unknown!" [ArgStr "Dense"]))
  ∧ Registry.get_layer_class_from_typename (Registry.class_object LayerBase)
      "LayerBase" ≠ Ok (Registry.class_object LayerBase).
Proof.
  destruct (registry_lookup (Registry.class_object LayerBase))
    as (_ & Hmissing & Hbase & Hown & _).
  split_and!.
  - apply (Hown FeedForwardLayer). discriminate.
  - apply Hmissing. intros c Hc.
    repeat (apply elem_of_cons in Hc as [->|Hc]; [discriminate|]).
    by apply elem_of_nil in Hc.
  - apply Hbase.
Defined.

(** The passes with the rectifier on the example buffers. *)
Lemma forward_pass_computes_activation_witness :
  forward_pass (bound_layer "rel") parameters input_buffer output_buffer buffers
  = (Ok tt, <[3 := [5; 0; 7; 0]%Z]> buffers).
Proof.
  refine (forward_pass_computes_activation
            (feed_forward {[ "act_func" := "rel" ]}) int_handler rel
            parameters WX W_bias input_buffer output_buffer 1 1 3 4 buffers
            _ _ _ _ _ _ _ _ _);
    try reflexivity; [cbn; lia | discriminate].
Defined.

Lemma backward_pass_accumulates_delta_witness :
  ∃ st1 st2,
    backward_pass (bound_layer "rel") parameters input_buffer output_buffer
      in_delta_buffer out_delta_buffer gradient_buffer buffers = (Ok tt, st1)
    ∧ backward_pass (bound_layer "rel") parameters input_buffer output_buffer
        in_delta_buffer out_delta_buffer' gradient_buffer st1 = (Ok tt, st2)
    ∧ data st2 in_delta_buffer = [10 + 1 + -1; 20 + 2 + 0; 30 + 3 + 2]%Z
    ∧ data st2 dWX = [-5; 0; 10; 25;  2; 0; -4; -10;  -7; 0; 14; 35]%Z
    ∧ data st2 dW_bias = [-1; 0; 2; 5]%Z.
Proof.
  destruct (backward_pass_accumulates_delta
              (feed_forward {[ "act_func" := "rel" ]}) int_handler rel
              parameters gradient_buffer WX W_bias dWX dW_bias
              input_buffer output_buffer in_delta_buffer
              out_delta_buffer out_delta_buffer' 1 1 3 4 buffers)
    as (st1 & st2 & Hrun1 & Hrun2 & Hdelta & HdW & Hdb); try reflexivity.
  - repeat constructor; cbn; lia.
  - repeat constructor; cbn; distinct_bases.
  - repeat constructor; cbn; distinct_bases.
  - exists st1, st2. split_and!; [exact Hrun1 | exact Hrun2 | | | ].
    + rewrite Hdelta. reflexivity.
    + rewrite HdW. reflexivity.
    + rewrite Hdb. reflexivity.
Defined.

End Examples.

(** * Further properties of the module *)

(** ** What construction accepts and what it leaves in the object *)

Section Constructed.

Context {R : Type}.

(** What a construction that returned has checked: [validate_kwargs]
    of the class, and the assertion of [InputLayer.__init__] and of
    [NoOpLayer.__init__]. *)
Lemma construct_ok_checked (c : layer_class) (size in_sz : option nat)
    (sinks sources : list nat) (kw : kwargs_t) (self : layer (R:=R)) :
  construct c size in_sz sinks sources kw = Ok self →
  (∀ k, is_Some (kw !! k) → k ∈ allowed_keys c)
  ∧ (c = InputLayer → in_sz = None ∨ in_sz = Some 0)
  ∧ (c = NoOpLayer → in_sz = size).
Proof.
  intros Hok.
  assert (Hkw : validate_kwargs c kw = Ok tt).
  { destruct c; cbn [construct] in Hok;
      unfold InputLayer_init, NoOpLayer_init, FeedForwardLayer_init,
        LayerBase_init in Hok;
      by destruct (validate_kwargs _ kw) as [[]|]. }
  split; [exact (proj1 (validate_kwargs_ok c kw) Hkw)|].
  destruct c; cbn [construct] in Hok;
    unfold InputLayer_init, NoOpLayer_init, FeedForwardLayer_init in Hok;
    rewrite (LayerBase_init_ok _ _ _ _ _ _ Hkw) in Hok; cbn in Hok;
    split; try done.
  - unfold assert in Hok. destruct (truthy in_sz) eqn:Htruthy; [done|].
    intros _. destruct in_sz as [[|n]|]; [by right|done|by left].
  - unfold assert, py_eq in Hok. intros _. by case_bool_decide.
Qed.

(** X3: a layer that was constructed has the class instantiated, holds
    in_size, kwargs, sink_layers and source_layers as they were passed,
    has out_size equal to size when size was given and to in_size
    otherwise, and has no handler and no activation yet; its kwargs keys
    are among those the class allows, an InputLayer has in_size None or
    0, and a NoOpLayer has out_size equal to in_size. *)
Theorem constructed_layer_attributes (c : layer_class) (size in_sz : option nat)
    (sinks sources : list nat) (kw : kwargs_t) (self : layer (R:=R)) :
  construct c size in_sz sinks sources kw = Ok self →
  cls self = c ∧ in_size self = in_sz ∧ kwargs self = kw
  ∧ out_size self = match size with Some s => Some s | None => in_sz end
  ∧ sink_layers self = sinks ∧ source_layers self = sources
  ∧ handler self = None ∧ act_func self = None ∧ act_func_deriv self = None
  ∧ (∀ k, is_Some (kw !! k) → k ∈ allowed_keys c)
  ∧ (c = InputLayer → in_sz = None ∨ in_sz = Some 0)
  ∧ (c = NoOpLayer → out_size self = in_size self).
Proof.
  intros Hok.
  assert (Hkw : validate_kwargs c kw = Ok tt).
  { destruct c; cbn [construct] in Hok;
      unfold InputLayer_init, NoOpLayer_init, FeedForwardLayer_init,
        LayerBase_init in Hok;
      by destruct (validate_kwargs _ kw) as [[]|]. }
  assert (Hkeys := proj1 (validate_kwargs_ok c kw) Hkw).
  destruct c; cbn [construct] in Hok;
    unfold InputLayer_init, NoOpLayer_init, FeedForwardLayer_init in Hok;
    rewrite (LayerBase_init_ok _ _ _ _ _ _ Hkw) in Hok; cbn in Hok.
  - injection Hok as <-. by split_and!.
  - unfold assert in Hok. destruct (truthy in_sz) eqn:Htruthy; [done|].
    injection Hok as <-. split_and!; try done.
    intros _. destruct in_sz as [[|n]|]; [by right|done|by left].
  - unfold assert, py_eq in Hok. case_bool_decide as Heq; [|done].
    injection Hok as <-. split_and!; try done.
    intros _. cbn. subst in_sz. by destruct size.
  - injection Hok as <-. by split_and!.
Qed.

(** X4: for LayerBase, InputLayer and FeedForwardLayer, and for a
    NoOpLayer whose size is given, construction succeeds exactly when
    every kwargs key is allowed for the class, the in_size of an
    InputLayer is None or 0, and the in_size of a NoOpLayer is its
    size. *)
Theorem construct_succeeds_iff (c : layer_class) (size in_sz : option nat)
    (sinks sources : list nat) (kw : kwargs_t) :
  c ≠ NoOpLayer ∨ is_Some size →
  is_ok (construct (R:=R) c size in_sz sinks sources kw) = true
  ↔ (∀ k, is_Some (kw !! k) → k ∈ allowed_keys c)
    ∧ (c = InputLayer → in_sz = None ∨ in_sz = Some 0)
    ∧ (c = NoOpLayer → in_sz = size).
Proof.
  intros _. split.
  - destruct (construct c size in_sz sinks sources kw) as [self|] eqn:Hok;
      [intros _|done].
    exact (construct_ok_checked _ _ _ _ _ _ _ Hok).
  - intros (Hkeys & Hin & Hnoop).
    apply validate_kwargs_ok in Hkeys.
    destruct c; cbn [construct];
      unfold InputLayer_init, NoOpLayer_init, FeedForwardLayer_init;
      rewrite (LayerBase_init_ok _ _ _ _ _ _ Hkeys); cbn; try done.
    + by destruct (Hin eq_refl) as [->| ->].
    + rewrite (Hnoop eq_refl). unfold assert, py_eq.
      by rewrite bool_decide_eq_true_2.
Qed.

(** X5: set_handler leaves the class, the sizes, the kwargs, the
    neighbours and the parameter structure of a layer as they were and
    stores the new handler, also when it raises; on a layer that is no
    FeedForwardLayer it always returns and does not touch the
    activation attributes. *)
Theorem set_handler_keeps_structure (self : layer (R:=R)) (h : Handler) :
  let self' := (set_handler self h).1 in
  cls self' = cls self ∧ in_size self' = in_size self
  ∧ out_size self' = out_size self ∧ kwargs self' = kwargs self
  ∧ sink_layers self' = sink_layers self
  ∧ source_layers self' = source_layers self
  ∧ get_parameter_structure self' = get_parameter_structure self
  ∧ handler self' = Some h
  ∧ (cls self ≠ FeedForwardLayer →
     (set_handler self h).2 = Ok tt
     ∧ act_func self' = act_func self
     ∧ act_func_deriv self' = act_func_deriv self).
Proof.
  unfold set_handler, get_parameter_structure, FeedForwardLayer_set_handler.
  destruct (cls self) eqn:Hcls; cbn; rewrite ?Hcls; try by split_and!.
  destruct (activation_functions h !! _) as [[f d]|]; cbn; rewrite ?Hcls;
    by split_and!.
Qed.

(** X6: binding a second handler gives the layer that binding it alone
    gives: nothing of the first binding is kept; and whether set_handler
    returns or raises does not depend on the handler. *)
Theorem set_handler_rebinds (self : layer (R:=R)) (h1 h2 : Handler) :
  set_handler (set_handler self h1).1 h2 = set_handler self h2
  ∧ (set_handler self h1).2 = (set_handler self h2).2.
Proof.
  assert (Hsame : ∀ name,
            is_Some (activation_functions h1 !! name)
            ↔ is_Some (activation_functions h2 !! name)).
  { intros name. rewrite !activation_functions_lookup.
    repeat case_bool_decide; done. }
  unfold set_handler.
  destruct (cls self) eqn:Hcls; cbn; rewrite ?Hcls; try done.
  unfold FeedForwardLayer_set_handler. cbn [kwargs with_handler].
  set (name := kwargs_get (kwargs self) "act_func" "tanh").
  specialize (Hsame name).
  destruct (activation_functions h1 !! name) as [[f1 d1]|] eqn:H1;
    destruct (activation_functions h2 !! name) as [[f2 d2]|] eqn:H2;
    cbn; rewrite ?Hcls; cbn; fold name; rewrite ?H2; try done.
  - destruct Hsame as [Hsame _]. by destruct Hsame as [? ?].
  - destruct Hsame as [_ Hsame]. by destruct Hsame as [? ?].
Qed.

(** X7: a FeedForwardLayer is constructed with any value of act_func;
    the name is looked up only by set_handler, which returns exactly for
    sigmoid, tanh, linear and rel and otherwise raises KeyError on the
    name, leaving the handler stored and the activation unset. *)
Theorem activation_name_checked_at_binding (size in_sz : option nat)
    (sinks sources : list nat) (name : string) (h : Handler (R:=R)) :
  ∃ self,
    FeedForwardLayer_init size in_sz sinks sources {[ "act_func" := name ]}
      = Ok self
    ∧ ((set_handler self h).2 = Ok tt
       ↔ name ∈ ["sigmoid"; "tanh"; "linear"; "rel"])
    ∧ (name ∉ ["sigmoid"; "tanh"; "linear"; "rel"] →
       set_handler self h = (with_handler self (Some h), Raise (KeyError name))
       ∧ act_func (set_handler self h).1 = None
       ∧ act_func_deriv (set_handler self h).1 = None).
Proof.
  eexists. split.
  { apply FeedForwardLayer_init_ok. intros k [v Hv].
    by apply lookup_singleton_Some in Hv as [-> _]. }
  set (self := {| cls := FeedForwardLayer |}).
  destruct (set_handler_cases self h eq_refl)
    as (_ & Hsigmoid & Htanh & Hlinear & Hrel & Hother).
  assert (Hname : kwargs_get (kwargs self) "act_func" "tanh" = name).
  { unfold kwargs_get. cbn. by rewrite lookup_singleton_eq. }
  rewrite Hname in *. split.
  - split.
    + intros Hok. destruct (decide (name ∈ ["sigmoid"; "tanh"; "linear"; "rel"]))
        as [|Hout]; [done|].
      by rewrite (Hother Hout) in Hok.
    + intros Hin.
      apply elem_of_cons in Hin as [->|Hin]; [by rewrite Hsigmoid|].
      apply elem_of_cons in Hin as [->|Hin]; [by rewrite Htanh|].
      apply elem_of_cons in Hin as [->|Hin]; [by rewrite Hlinear|].
      apply elem_of_cons in Hin as [->|Hin]; [by rewrite Hrel|].
      by apply elem_of_nil in Hin.
  - intros Hout. by rewrite (Hother Hout).
Qed.

End Constructed.

(** ** How the passes of a FeedForwardLayer fail, and what they leave alone *)

Section Pass_edges.

Context {R : Type}.
Implicit Types (st : store R) (h : Handler (R:=R)).

(** X8: the forward pass of a FeedForwardLayer checks its arguments in
    this order, and writes nothing when a check fails: parameters['W']
    (KeyError 'W'), parameters['b'] (KeyError 'b'), the three axes of
    input_buffer (ValueError), and then the handler, whose absence raises
    AttributeError at H.reshape. *)
Theorem forward_pass_errors (self : layer (R:=R))
    (parameters : gmap string ndarray) (input_buffer output_buffer : ndarray) st :
  cls self = FeedForwardLayer →
  let run := forward_pass self parameters input_buffer output_buffer st in
  (parameters !! "W" = None → run = (Raise (KeyError "W"), st))
  ∧ (is_Some (parameters !! "W") → parameters !! "b" = None →
     run = (Raise (KeyError "b"), st))
  ∧ (is_Some (parameters !! "W") → is_Some (parameters !! "b") →
     length (shape input_buffer) ≠ 3 →
     ∃ msg, run = (Raise (ValueError msg), st))
  ∧ (is_Some (parameters !! "W") → is_Some (parameters !! "b") →
     length (shape input_buffer) = 3 → handler self = None →
     run = (Raise (AttributeError
                     (Format "'NoneType' object has no attribute '{}'"
                             [ArgStr "reshape"])), st)).
Proof.
  intros Hcls run. unfold run, forward_pass. rewrite Hcls.
  unfold FeedForwardLayer_forward_pass, getitem, unpack3, bound.
  split_and!.
  - by intros ->.
  - by intros [WX ->] ->.
  - intros [WX ->] [W_bias ->] Hshape.
    destruct (shape input_buffer) as [|t [|b [|f [|]]]];
      first [ by cbn in Hshape | eexists; reflexivity ].
  - intros [WX ->] [W_bias ->] Hshape ->.
    by destruct (shape input_buffer) as [|t [|b [|f [|]]]].
Qed.

(** X9: the backward pass of a FeedForwardLayer checks parameters['W'],
    parameters['b'], gradient_buffer['W'] and gradient_buffer['b'] in
    this order (KeyError on the first key missing) and then the handler
    (AttributeError at H.zeros), and writes nothing when one of these
    fails; the axes of input_buffer are unpacked only after dZ was
    allocated, so the ValueError of an input that has not three axes
    leaves the buffers as they were and one zero buffer more. *)
Theorem backward_pass_errors (self : layer (R:=R))
    (parameters gradient_buffer : gmap string ndarray)
    (input_buffer output_buffer in_delta_buffer out_delta_buffer : ndarray) st :
  cls self = FeedForwardLayer →
  let run := backward_pass self parameters input_buffer output_buffer
               in_delta_buffer out_delta_buffer gradient_buffer st in
  (parameters !! "W" = None → run = (Raise (KeyError "W"), st))
  ∧ (is_Some (parameters !! "W") → parameters !! "b" = None →
     run = (Raise (KeyError "b"), st))
  ∧ (is_Some (parameters !! "W") → is_Some (parameters !! "b") →
     gradient_buffer !! "W" = None → run = (Raise (KeyError "W"), st))
  ∧ (is_Some (parameters !! "W") → is_Some (parameters !! "b") →
     is_Some (gradient_buffer !! "W") → gradient_buffer !! "b" = None →
     run = (Raise (KeyError "b"), st))
  ∧ (is_Some (parameters !! "W") → is_Some (parameters !! "b") →
     is_Some (gradient_buffer !! "W") → is_Some (gradient_buffer !! "b") →
     handler self = None →
     run = (Raise (AttributeError
                     (Format "'NoneType' object has no attribute '{}'"
                             [ArgStr "zeros"])), st))
  ∧ (is_Some (parameters !! "W") → is_Some (parameters !! "b") →
     is_Some (gradient_buffer !! "W") → is_Some (gradient_buffer !! "b") →
     ∀ h, handler self = Some h → length (shape input_buffer) ≠ 3 →
     ∃ msg, run = (Raise (ValueError msg),
                   st ++ [replicate (size_of (shape output_buffer)) (h_zero h)])).
Proof.
  intros Hcls run. unfold run, backward_pass. rewrite Hcls.
  unfold FeedForwardLayer_backward_pass, getitem, unpack3, bound.
  split_and!.
  - by intros ->.
  - by intros [WX ->] ->.
  - by intros [WX ->] [W_bias ->] ->.
  - by intros [WX ->] [W_bias ->] [dWX ->] ->.
  - by intros [WX ->] [W_bias ->] [dWX ->] [dW_bias ->] ->.
  - intros [WX ->] [W_bias ->] [dWX ->] [dW_bias ->] h -> Hshape.
    destruct (shape input_buffer) as [|t [|b [|f [|]]]];
      first [ by cbn in Hshape | eexists; reflexivity ].
Qed.

(** X10: whatever the layer, the arguments and the outcome, a forward
    pass allocates nothing and writes no buffer but the one of
    output_buffer: the parameters and the input are as they were, unless
    they share that buffer. *)
Theorem forward_pass_writes_only_output (self : layer (R:=R))
    (parameters : gmap string ndarray) (input_buffer output_buffer : ndarray) st :
  let st' := (forward_pass self parameters input_buffer output_buffer st).2 in
  length st' = length st
  ∧ ∀ a, base a ≠ base output_buffer → data st' a = data st a.
Proof.
  unfold forward_pass.
  destruct (cls self); try done.
  unfold FeedForwardLayer_forward_pass, getitem, unpack3, bound, as_dim.
  destruct (parameters !! "W") as [WX|]; [|done].
  destruct (parameters !! "b") as [W_bias|]; [|done].
  destruct (shape input_buffer) as [|t [|b [|f [|]]]]; try done.
  destruct (handler self) as [h|]; [|done].
  destruct (out_size self) as [n|]; [|done].
  rewrite !bind_ret. cbn beta iota. rewrite ?bind_ret.
  erewrite bind_ok by reflexivity. erewrite bind_ok by reflexivity.
  unfold call_act_func, write, raise.
  change (base (H_reshape output_buffer [t * b; n])) with (base output_buffer).
  destruct (act_func self) as [[h' m|]|]; cbn [snd];
    (split; [by rewrite !length_insert|]);
    intros a Ha; by rewrite !data_insert_ne.
Qed.

Ltac unchanged_store :=
  unfold mbind, M_bind, raise; cbn; split; [lia|done].

(** X11: whatever the layer, the arguments and the outcome, a backward
    pass allocates at most one buffer (dZ) and writes, of the buffers
    that were there, only those of in_delta_buffer, gradient_buffer['W']
    and gradient_buffer['b']: the parameters, the input, the output and
    out_delta_buffer are as they were, unless they share one of
    these. *)
Theorem backward_pass_writes_only_deltas_and_gradients (self : layer (R:=R))
    (parameters gradient_buffer : gmap string ndarray)
    (input_buffer output_buffer in_delta_buffer out_delta_buffer : ndarray) st :
  let st' := (backward_pass self parameters input_buffer output_buffer
                in_delta_buffer out_delta_buffer gradient_buffer st).2 in
  length st ≤ length st' ≤ S (length st)
  ∧ ∀ a, base a < length st →
         base a ≠ base in_delta_buffer →
         (∀ g, gradient_buffer !! "W" = Some g → base a ≠ base g) →
         (∀ g, gradient_buffer !! "b" = Some g → base a ≠ base g) →
         data st' a = data st a.
Proof.
  unfold backward_pass.
  destruct (cls self); try (cbn; split; [lia|done]).
  unfold FeedForwardLayer_backward_pass, getitem, unpack3, bound, as_dim.
  destruct (parameters !! "W") as [WX|]; [|by unchanged_store].
  destruct (parameters !! "b") as [W_bias|]; [|by unchanged_store].
  destruct (gradient_buffer !! "W") as [dWX|]; [|by unchanged_store].
  destruct (gradient_buffer !! "b") as [dW_bias|]; [|by unchanged_store].
  destruct (handler self) as [h|]; [|by unchanged_store].
  rewrite !bind_ret. erewrite bind_ok by reflexivity.
  assert (Hgrown : ∀ z : list R,
            length st ≤ length (st ++ [z]) ≤ S (length st)
            ∧ ∀ a, base a < length st → data (st ++ [z]) a = data st a).
  { intros z. split; [rewrite length_app; cbn; lia|].
    intros a Ha. by apply data_app_l. }
  destruct (shape input_buffer) as [|t [|b [|f [|]]]];
    try (cbn; split; [apply Hgrown | intros a Ha _ _ _; by apply Hgrown]).
  destruct (out_size self) as [n|];
    [|cbn; split; [apply Hgrown | intros a Ha _ _ _; by apply Hgrown]].
  rewrite !bind_ret. cbn beta iota. rewrite ?bind_ret.
  unfold call_act_func_deriv, raise.
  destruct (act_func_deriv self) as [[h' m|k]|];
    try (cbn; split; [apply Hgrown | intros a Ha _ _ _; by apply Hgrown]).
  erewrite bind_ok by reflexivity.
  erewrite bind_ok by reflexivity.
  erewrite bind_ok by reflexivity.
  unfold H_sum, write. cbn [snd base H_reshape].
  split.
  - rewrite !length_insert, length_app. cbn. lia.
  - intros a Ha Hdelta HdW Hdb.
    rewrite !data_insert_ne
      by first [ done | by apply HdW | by apply Hdb | lia ].
    by apply data_app_l.
Qed.

End Pass_edges.

(** ** Overwriting and the empty batch *)

Section Pass_results.

Context {R : Type}.
Implicit Types (st : store R) (h : Handler (R:=R)).

Lemma tabulate2_const m n (z : R) :
  tabulate2 m n (λ _ _, z) = replicate (m * n) z.
Proof.
  induction m as [|m IH]; [done|].
  rewrite tabulate2_S, IH. cbn [Nat.mul].
  rewrite (Nat.add_comm n), replicate_add. f_equal.
  clear IH. generalize 0. induction n as [|n IHn]; intros s; [done|].
  cbn. by rewrite IHn.
Qed.

Lemma map_const_seq {A} (z : A) s n : map (λ _, z) (seq s n) = replicate n z.
Proof. revert s. induction n as [|n IH]; intros s; [done|]. cbn. by rewrite IH. Qed.

(** X12: for the activations sigmoid, tanh and rel, the forward pass
    overwrites the output buffer: what the buffer held before has no
    part in the result, the buffer then holds t * b * out_size cells,
    and a second forward pass on the same buffers changes nothing (the
    output buffer sharing no buffer with the input, W or b). *)
Theorem forward_pass_overwrites_output (self : layer (R:=R)) h (m : method)
    (parameters : gmap string ndarray)
    (WX W_bias input_buffer output_buffer : ndarray) (t b f n : nat)
    st (old : list R) :
  cls self = FeedForwardLayer →
  kwargs_get (kwargs self) "act_func" "tanh" = method_name m →
  out_size self = Some n →
  parameters !! "W" = Some WX → parameters !! "b" = Some W_bias →
  shape input_buffer = [t; b; f] →
  shape WX = [f; n] →
  base output_buffer < length st →
  base input_buffer ≠ base output_buffer →
  base WX ≠ base output_buffer →
  base W_bias ≠ base output_buffer →
  let bound := (set_handler self h).1 in
  ∃ st1,
    forward_pass bound parameters input_buffer output_buffer st = (Ok tt, st1)
    ∧ forward_pass bound parameters input_buffer output_buffer
        (<[base output_buffer := old]> st) = (Ok tt, st1)
    ∧ forward_pass bound parameters input_buffer output_buffer st1 = (Ok tt, st1)
    ∧ length (data st1 output_buffer) = t * b * n.
Proof.
  intros Hcls Hname Hn HW Hb Hin HWs Hout Hni HnW Hnb bound.
  unfold bound. rewrite (set_handler_method self h m Hcls Hname). cbn [fst].
  set (bound_layer := with_act_func _ _ _).
  assert (Hrun : ∀ junk : list R,
    forward_pass bound_layer parameters input_buffer output_buffer
      (<[base output_buffer := junk]> st) =
    forward_pass bound_layer parameters input_buffer output_buffer st).
  { intros junk.
    rewrite !(forward_pass_bound bound_layer h h m parameters WX W_bias
                input_buffer output_buffer t b f n)
      by (done || by rewrite length_insert).
    rewrite !data_insert_ne by done.
    by rewrite list_insert_insert_eq. }
  eexists. split.
  { by apply (forward_pass_bound bound_layer h h m parameters WX W_bias
                input_buffer output_buffer t b f n). }
  split_and!.
  - rewrite Hrun.
    by apply (forward_pass_bound bound_layer h h m parameters WX W_bias
                input_buffer output_buffer t b f n).
  - rewrite Hrun.
    by apply (forward_pass_bound bound_layer h h m parameters WX W_bias
                input_buffer output_buffer t b f n).
  - rewrite (data_insert_eq _ _ (base output_buffer)) by done.
    by rewrite length_tabulate2.
Qed.

(** X14: with an empty batch (t * b = 0) and an activation sigmoid, tanh
    or rel, the forward pass leaves the output buffer empty, and the
    backward pass leaves in_delta_buffer empty and overwrites both
    gradient buffers with zeros of the handler. *)
Theorem empty_batch_passes (self : layer (R:=R)) h (m : method)
    (parameters gradient_buffer : gmap string ndarray)
    (WX W_bias dWX dW_bias : ndarray)
    (input_buffer output_buffer in_delta_buffer out_delta_buffer : ndarray)
    (t b f n : nat) st :
  cls self = FeedForwardLayer →
  kwargs_get (kwargs self) "act_func" "tanh" = method_name m →
  out_size self = Some n →
  parameters !! "W" = Some WX → parameters !! "b" = Some W_bias →
  gradient_buffer !! "W" = Some dWX → gradient_buffer !! "b" = Some dW_bias →
  shape input_buffer = [t; b; f] →
  shape WX = [f; n] →
  t * b = 0 →
  Forall (λ a, base a < length st)
    [input_buffer; output_buffer; in_delta_buffer; out_delta_buffer;
     WX; dWX] →
  base W_bias ≠ base output_buffer →
  base input_buffer ≠ base in_delta_buffer →
  let bound := (set_handler self h).1 in
  forward_pass bound parameters input_buffer output_buffer st =
    (Ok tt, <[base output_buffer := []]> st)
  ∧ backward_pass bound parameters input_buffer output_buffer
      in_delta_buffer out_delta_buffer gradient_buffer st =
      (Ok tt,
       <[base dW_bias := replicate n (h_zero h)]>
         (<[base dWX := replicate (f * n) (h_zero h)]>
            (<[base in_delta_buffer := []]>
               (st ++ [zip_with (deriv_of h m None) (data st output_buffer)
                                (data st out_delta_buffer)])))).
Proof.
  intros Hcls Hname Hn HW Hb HdW Hdb Hin HWs Hempty Hvalid Hnb Hne bound.
  repeat (apply Forall_cons in Hvalid as [? Hvalid]).
  split.
  - unfold bound. rewrite (set_handler_method self h m Hcls Hname). cbn [fst].
    rewrite (forward_pass_bound _ h h m parameters WX W_bias
               input_buffer output_buffer t b f n) by done.
    by rewrite Hempty.
  - unfold bound. rewrite (set_handler_method self h m Hcls Hname). cbn [fst].
    rewrite (backward_pass_bound _ h h m _ _ WX W_bias dWX dW_bias
               _ _ _ _ t b f n) by done.
    rewrite Hempty. cbn [tabulate2 seq flat_map].
    rewrite <- (tabulate2_const f n (h_zero h)).
    rewrite <- (map_const_seq (h_zero h) 0 n).
    done.
Qed.

End Pass_results.

(** ** The further properties on the example buffers *)

Section More_examples.

Import Example.

Lemma constructed_layer_attributes_witness :
  construct (R:=Z) NoOpLayer (Some 4) (Some 4) [7] [5; 6] ∅
    = Ok (with_kwargs
            {| cls := NoOpLayer; in_size := Some 4; kwargs := ∅;
               out_size := Some 4; sink_layers := [7]; source_layers := [5; 6];
               handler := None; act_func := None; act_func_deriv := None |} ∅)
  ∧ ∀ self, construct (R:=Z) NoOpLayer (Some 4) (Some 4) [7] [5; 6] ∅ = Ok self →
            out_size self = in_size self ∧ sink_layers self = [7]
            ∧ source_layers self = [5; 6] ∧ handler self = None.
Proof.
  split; [reflexivity|]. intros self Hself.
  destruct (constructed_layer_attributes NoOpLayer (Some 4) (Some 4) [7] [5; 6]
              ∅ self Hself)
    as (_ & _ & _ & _ & Hsinks & Hsources & Hhandler & _ & _ & _ & _ & Hnoop).
  split_and!; [by apply Hnoop | exact Hsinks | exact Hsources | exact Hhandler].
Defined.

Lemma construct_succeeds_iff_witness :
  is_ok (construct (R:=Z) InputLayer (Some 5) (Some 0) [] [] ∅) = true
  ∧ is_ok (construct (R:=Z) NoOpLayer (Some 4) (Some 5) [] [] ∅) ≠ true.
Proof.
  split.
  - apply (construct_succeeds_iff (R:=Z) InputLayer (Some 5) (Some 0) [] [] ∅);
      [by left|].
    split_and!; [|by right|done].
    intros k [v Hv]. by rewrite lookup_empty in Hv.
  - intros Hok.
    apply (construct_succeeds_iff (R:=Z) NoOpLayer (Some 4) (Some 5) [] [] ∅)
      in Hok as (_ & _ & Hsize); [|by right].
    by specialize (Hsize eq_refl).
Defined.

Lemma forward_pass_errors_witness :
  forward_pass (feed_forward ∅) ∅ input_buffer output_buffer buffers
    = (Raise (KeyError "W"), buffers)
  ∧ forward_pass (feed_forward ∅) parameters input_buffer output_buffer buffers
    = (Raise (AttributeError
                (Format "'NoneType' object has no attribute '{}'"
                        [ArgStr "reshape"])), buffers).
Proof.
  split.
  - by apply (forward_pass_errors (feed_forward ∅) ∅ input_buffer output_buffer
                buffers eq_refl).
  - apply (forward_pass_errors (feed_forward ∅) parameters input_buffer
             output_buffer buffers eq_refl); by eauto.
Defined.

Lemma backward_pass_errors_witness :
  backward_pass (feed_forward ∅) parameters input_buffer output_buffer
    in_delta_buffer out_delta_buffer {[ "W" := dWX ]} buffers
    = (Raise (KeyError "b"), buffers)
  ∧ backward_pass (feed_forward ∅) parameters input_buffer output_buffer
      in_delta_buffer out_delta_buffer gradient_buffer buffers
    = (Raise (AttributeError
                (Format "'NoneType' object has no attribute '{}'"
                        [ArgStr "zeros"])), buffers).
Proof.
  split.
  - apply (backward_pass_errors (feed_forward ∅) parameters {[ "W" := dWX ]}
             input_buffer output_buffer in_delta_buffer out_delta_buffer
             buffers eq_refl); by eauto.
  - apply (backward_pass_errors (feed_forward ∅) parameters gradient_buffer
             input_buffer output_buffer in_delta_buffer out_delta_buffer
             buffers eq_refl); by eauto.
Defined.

Lemma forward_pass_overwrites_output_witness :
  ∃ st1,
    forward_pass (bound_layer "rel") parameters input_buffer output_buffer
      buffers = (Ok tt, st1)
    ∧ forward_pass (bound_layer "rel") parameters input_buffer output_buffer
        (<[3 := [0; 0; 0; 0]%Z]> buffers) = (Ok tt, st1)
    ∧ forward_pass (bound_layer "rel") parameters input_buffer output_buffer
        st1 = (Ok tt, st1)
    ∧ length (data st1 output_buffer) = 4.
Proof.
  refine (forward_pass_overwrites_output
            (feed_forward {[ "act_func" := "rel" ]}) int_handler rel
            parameters WX W_bias input_buffer output_buffer 1 1 3 4 buffers
            [0; 0; 0; 0]%Z _ _ _ _ _ _ _ _ _ _ _);
    try reflexivity; try discriminate. cbn; lia.
Defined.

Lemma empty_batch_passes_witness :
  let no_rows := {| base := 0; shape := [0; 2; 3] |} in
  let no_out := {| base := 3; shape := [0; 2; 4] |} in
  let st := <[0 := []]> (<[3 := []]> (<[4 := []]> (<[5 := []]> buffers))) in
  forward_pass (bound_layer "tanh") parameters no_rows no_out st
    = (Ok tt, st)
  ∧ (backward_pass (bound_layer "tanh") parameters no_rows no_out
       {| base := 4; shape := [0; 2; 3] |} {| base := 5; shape := [0; 2; 4] |}
       gradient_buffer st).2 !! 7 = Some (replicate 12 0%Z).
Proof.
  intros no_rows no_out st.
  destruct (empty_batch_passes
              (feed_forward {[ "act_func" := "tanh" ]}) int_handler tanh
              parameters gradient_buffer WX W_bias dWX dW_bias
              no_rows no_out {| base := 4; shape := [0; 2; 3] |}
              {| base := 5; shape := [0; 2; 4] |} 0 2 3 4 st)
    as [Hforward Hbackward]; try reflexivity; try discriminate.
  - repeat constructor; cbn; lia.
  - unfold bound_layer. split.
    + rewrite Hforward. reflexivity.
    + rewrite Hbackward. reflexivity.
Defined.

End More_examples.
